(** * The cppcheck tool adapter (client/tool/cppcheck.py)

    A shallow embedding of the [Cppcheck] adapter class: file selection,
    rule negotiation, command-line construction, the scan subprocess and
    the line-oriented result parser, with the properties its
    specification states about them.

    Conventions of the embedding.
    - Python [str] is [string]; a character is a code point below 256.
    - Exceptions are explicit: a computation that may raise returns
      [result A].
    - The file system is a finite map from path to content, threaded
      through the stateful functions.  It holds regular files whose
      content decodes in the encoding they are read with; a directory
      or undecodable bytes at a path are outside the model.
    - Paths are POSIX: [os.sep] is ["/"] and [os.path.join] is
      [posixpath.join].  [sys.platform] is a field of the host; it
      decides the transcoding branch of [_run_cppcheck], whose effect
      on the file is the host's to say.
    - Logging calls ([LogPrinter], [print_log]) have no effect on
      results and are left out. *)

From Stdlib Require Import ZArith Ascii String.
From stdpp Require Import gmap strings list.

Local Open Scope Z_scope.

(** ** Python built-ins used by the adapter *)

Module Py.

Definition LF : ascii := "010"%char.
Definition CR : ascii := "013"%char.

(** [s.startswith(p)] *)
Definition startswith (s p : string) : bool := String.prefix p s.

(** [s.endswith(suf)] *)
Fixpoint endswith (s suf : string) : bool :=
  String.eqb s suf ||
  match s with
  | "" => false
  | String _ s' => endswith s' suf
  end.

(** [s.endswith(tuple(sufs))] *)
Definition endswith_any (s : string) (sufs : list string) : bool :=
  existsb (endswith s) sufs.

(** [s.find(pat) != -1] *)
Fixpoint contains (s pat : string) : bool :=
  String.prefix pat s ||
  match s with
  | "" => false
  | String _ s' => contains s' pat
  end.

(** [s[n:]] for a non-negative [n] *)
Fixpoint slice_from (n : nat) (s : string) : string :=
  match n, s with
  | O, _ => s
  | S _, "" => ""
  | S k, String _ s' => slice_from k s'
  end.

(** [s.split(sep)] for a non-empty separator: a left-to-right scan for
    non-overlapping occurrences.  [skip] counts the characters of a
    matched separator that are still to be passed over. *)
Fixpoint split_go (sep : string) (skip : nat) (s : string) : list string :=
  match s with
  | "" => [""]
  | String c s' =>
    match skip with
    | S k => split_go sep k s'
    | O =>
      if String.prefix sep s
      then "" :: split_go sep (Nat.pred (String.length sep)) s'
      else match split_go sep O s' with
           | f :: fs => String c f :: fs
           | [] => [String c ""]
           end
    end
  end.

Definition split (s sep : string) : list string := split_go sep O s.

(** [sep.join(l)] on a list of strings *)
Fixpoint join (sep : string) (l : list string) : string :=
  match l with
  | [] => ""
  | [x] => x
  | x :: rest => x +:+ sep +:+ join sep rest
  end.

(** Text-mode reading translates ["\r\n"] and a lone ["\r"] to ["\n"]
    (universal newlines). *)
Fixpoint universal_newlines (s : string) : string :=
  match s with
  | "" => ""
  | String c s' =>
    if Ascii.eqb c CR
    then match s' with
         | String c' _ =>
           if Ascii.eqb c' LF then universal_newlines s'
           else String LF (universal_newlines s')
         | "" => String LF ""
         end
    else String c (universal_newlines s')
  end.

(** The lines of a text, each with its line ending kept. *)
Fixpoint lines_keepends (s : string) : list string :=
  match s with
  | "" => []
  | String c s' =>
    if Ascii.eqb c LF then String c "" :: lines_keepends s'
    else match lines_keepends s' with
         | [] => [String c ""]
         | l :: ls => String c l :: ls
         end
  end.

(** The characters that [int] strips at both ends, below code point
    256: tab to carriage return, the space, and the two Unicode spaces
    U+0085 and U+00A0.  The separators U+001C to U+001F, for which
    [str.isspace] holds, are not among them. *)
Definition int_space (c : ascii) : bool :=
  let n := nat_of_ascii c in
  ((9 <=? n) && (n <=? 13) || (n =? 32) || (n =? 133) || (n =? 160))%nat.

Definition digit (c : ascii) : option Z :=
  let n := nat_of_ascii c in
  if ((48 <=? n) && (n <=? 57))%nat then Some (Z.of_nat (n - 48)) else None.

Fixpoint lstrip (s : string) : string :=
  match s with
  | "" => ""
  | String c s' => if int_space c then lstrip s' else s
  end.

Definition strip (s : string) : string :=
  String.rev (lstrip (String.rev (lstrip s))).

(** Decimal digits, single underscores allowed between two digits.
    [after_digit] tells whether the previous character was a digit. *)
Fixpoint digits (acc : Z) (after_digit : bool) (s : string) : option Z :=
  match s with
  | "" => if after_digit then Some acc else None
  | String c s' =>
    match digit c with
    | Some d => digits (10 * acc + d) true s'
    | None =>
      if Ascii.eqb c "_"%char && after_digit then digits acc false s'
      else None
    end
  end.

Fixpoint count_digits (s : string) : nat :=
  match s with
  | "" => O
  | String c s' =>
    match digit c with
    | Some _ => S (count_digits s')
    | None => count_digits s'
    end
  end.

(** [sys.get_int_max_str_digits()], at its default. *)
Definition int_max_str_digits : nat := 4300.

(** [int(s)] in base 10: surrounding white space, an optional sign,
    then digits.  [None] stands for [ValueError].  A text with more
    digits than the interpreter's limit is rejected; interpreters
    older than the limit accept it, so what the model accepts every
    interpreter accepts. *)
Definition int (s : string) : option Z :=
  if (int_max_str_digits <? count_digits s)%nat then None
  else
    match strip s with
    | String c s' =>
      if Ascii.eqb c "-"%char then Z.opp <$> digits 0 false s'
      else if Ascii.eqb c "+"%char then digits 0 false s'
      else digits 0 false (String c s')
    | "" => None
    end.

(** [s.replace(old, new)] for a non-empty [old] *)
Definition replace (s old new : string) : string := join new (split s old).

(** [os.path.join(a, p)] on POSIX. *)
Definition path_join (a p : string) : string :=
  if startswith p "/" then p
  else if String.eqb a "" || endswith a "/" then a +:+ p
  else a +:+ "/" +:+ p.

End Py.

(** ** Exceptions and results *)

Inductive exn : Set :=
| ConfigError | AnalyzeTaskError
| KeyError | ValueError | TypeError | FileNotFoundError | ParseError
| UnicodeDecodeError.

Inductive result (A : Type) : Type :=
| Ok (a : A)
| Raise (e : exn).
Arguments Ok {A} a.
Arguments Raise {A} e.

#[global] Instance result_ret : MRet result := @Ok.
#[global] Instance result_bind : MBind result := fun A B k r =>
  match r with
  | Ok a => k a
  | Raise e => Raise e
  end.

#[global] Instance result_fmap : FMap result := fun A B f r =>
  match r with
  | Ok a => Ok (f a)
  | Raise e => Raise e
  end.

(** ** The result parser *)

(** The issue dictionary built by [_format_result]. *)
Record Issue : Set := {
  path : string;
  line : Z;
  column : string;
  msg : string;
  rule : string
}.

(** The field delimiter of the output template. *)
Definition DELIM : string := "[CODEDOG]".

(** The body of the loop of [_format_result] on one line: [Ok None] is
    [continue], [Ok (Some issue)] is [issues.append(issue)], and
    [Raise ValueError] is the exception of [int]. *)
Definition format_line (relpos : nat) (rules : list string)
    (supported_rules : gset (option string)) (ln : string) : result (option Issue) :=
  let error := Py.split ln DELIM in
  if negb (length error =? 5)%nat then Ok None
  else if bool_decide ("" ∈ error) then Ok None
  else match error with
       | [e0; e1; rule; _; e4] =>
         if bool_decide (Some rule ∉ supported_rules) then Ok None
         else if bool_decide (rule ∈ ["missingInclude"; "MissingIncludeSystem"]) then Ok None
         else if bool_decide (rule ∉ rules) then Ok None
         else match Py.int e1 with
              | None => Raise ValueError
              | Some n =>
                Ok (Some {| path := Py.slice_from relpos e0;
                            line := n;
                            column := "1";
                            msg := e4;
                            rule := rule |})
              end
       | _ => Ok None
       end.

(** The loop over the lines, with the list [issues] it appends to. *)
Fixpoint format_lines (relpos : nat) (rules : list string)
    (supported_rules : gset (option string)) (lines : list string)
    (issues : list Issue) : result (list Issue) :=
  match lines with
  | [] => Ok issues
  | ln :: rest =>
    match format_line relpos rules supported_rules ln with
    | Raise e => Raise e
    | Ok None => format_lines relpos rules supported_rules rest issues
    | Ok (Some issue) =>
      format_lines relpos rules supported_rules rest (issues ++ [issue])
    end
  end.

(** [open(p, "r")] followed by [read()] / [readlines()]: text mode, so
    with universal newlines; a missing file is [FileNotFoundError].
    The files of the model are regular and decodable, so no other
    error of [open] or of the decoder is represented. *)
Definition read (fs : gmap string string) (p : string) : result string :=
  match fs !! p with
  | None => Raise FileNotFoundError
  | Some content => Ok (Py.universal_newlines content)
  end.

Definition readlines (fs : gmap string string) (p : string) : result (list string) :=
  Py.lines_keepends <$> read fs p.

Definition _format_result (source_dir scan_result_path : string)
    (rules : list string) (supported_rules : gset (option string))
    (fs : gmap string string) : result (list Issue) :=
  let issues := [] in
  let relpos := (String.length source_dir + 1)%nat in
  lines ← readlines fs scan_result_path;
  format_lines relpos rules supported_rules lines issues.

(** ** The host and the external collaborators *)

Module Params.
(** The task parameters read by [analyze]. *)
Record t : Set := {
  source_dir : string;
  work_dir : string;
  rules : list string;
  incr_scan : bool
}.
End Params.

Module Diff.
(** A record of [SCMMgr(params).get_scm_diff()]. *)
Record t : Set := { path : string; state : string }.
End Diff.

(** An [xml.etree.ElementTree] element: attributes and children. *)
#[warnings="-register-all"]
Inductive element : Type :=
| Element (tag : string) (attrib : gmap string string) (children : list element).

Definition tag_of (e : element) : string :=
  match e with Element t _ _ => t end.

(** [e.get(key)]: [None] when the attribute is absent. *)
Definition get (e : element) (key : string) : option string :=
  match e with Element _ a _ => a !! key end.

(** Iterating over an element yields its children. *)
Definition iter (e : element) : list element :=
  match e with Element _ _ c => c end.

(** [e.find(tag)]: the first child with that tag. *)
Definition find (e : element) (tag : string) : option element :=
  List.find (fun c => String.eqb (tag_of c) tag) (iter e).

(** What a finished child process leaves behind. *)
Record proc : Type := {
  return_code : Z;
  stderr_lines : list string;
  fs_after : gmap string string
}.

Inductive launch : Type :=
| NotFound
| Ran (p : proc).

(** Everything outside the adapter: the environment, the collaborators
    of the task framework and the behaviour of the child processes. *)
Record Host : Type := {
  (** [os.environ] *)
  environ : gmap string string;
  (** [str(psutil.cpu_count())] *)
  cpu_count : string;
  (** [SCMMgr(params).get_scm_diff()] *)
  get_scm_diff : Params.t -> list Diff.t;
  (** [PathMgr().get_dir_files(dir, suffixes)] *)
  get_dir_files : string -> list string -> list string;
  (** [FilterPathUtil(params).get_include_files(paths, relpos)] *)
  get_include_files : Params.t -> list string -> nat -> list string;
  (** [ET.fromstring]; [None] is a parse error *)
  fromstring : string -> option element;
  (** the child process started for a command line in a working
      directory, on the file system it finds *)
  spawn : list string -> option string -> gmap string string -> launch;
  (** the code [wait] reports for a binary that could not be started *)
  not_found_code : Z;
  (** [sys.platform] *)
  platform : string;
  (** what a file holds after its content is read with encoding gbk
      and written back with encoding utf-8; [None] when the gbk reader
      raises [UnicodeDecodeError] *)
  gbk_to_utf8 : string -> option string
}.

(** Stateful computations over the file system that may raise. *)
Definition M (A : Type) : Type :=
  gmap string string -> result (A * gmap string string).

Definition ret {A} (a : A) : M A := fun fs => Ok (a, fs).

Definition bind {A B} (m : M A) (k : A -> M B) : M B := fun fs =>
  match m fs with
  | Ok (a, fs') => k a fs'
  | Raise e => Raise e
  end.

Notation "x <- m ; k" := (bind m (fun x => k))
  (at level 20, m at level 100, k at level 200, only parsing).

Definition lift {A} (r : result A) : M A := fun fs =>
  match r with
  | Ok a => Ok (a, fs)
  | Raise e => Raise e
  end.

Definition raise {A} (e : exn) : M A := fun _ => Raise e.

(** [os.path.exists(p)] *)
Definition exists_ (p : string) : M bool := fun fs =>
  Ok (bool_decide (is_Some (fs !! p)), fs).

(** [open(p, "w").write(text)] *)
Definition write (p text : string) : M unit := fun fs =>
  Ok (tt, <[p := text]> fs).

Fixpoint each_line (callback : string -> result unit) (ls : list string) : result unit :=
  match ls with
  | [] => Ok tt
  | l :: rest => _ ← callback l; each_line callback rest
  end.

(** Modelled from the spec: [util.subprocc.SubProcController] is not
    among the sources.  Section 4.3 gives the runner the contract
    [run(...) -> exitCode], blocking until the process terminates, with
    every stderr line passed to the callback, which may raise and so
    abort the operation.  Sections 4.5 and 8 make a binary that is
    absent from PATH a negative result, not an exception: [wait] then
    reports the host's code for it. *)
Definition SubProcController (h : Host) (cmd_args : list string)
    (cwd : option string) (stderr_line_callback : string -> result unit) : M Z :=
  fun fs =>
    match spawn h cmd_args cwd fs with
    | NotFound => Ok (not_found_code h, fs)
    | Ran p =>
      _ ← each_line stderr_line_callback (stderr_lines p);
      Ok (return_code p, fs_after p)
    end.

Definition print_log (ln : string) : result unit := Ok tt.

(** ** The adapter *)

Section Cppcheck.

Variable h : Host.

Definition errorlist_path : string := "cppcheck_errorlist.xml".

(** The dictionary comprehension of [_get_id_severity_map]: a later
    element overrides an earlier one with the same id. *)
Definition id_severity_dict (error_root : element)
  : gmap (option string) (option string) :=
  foldl (fun m error => <[get error "id" := get error "severity"]> m) ∅
        (iter error_root).

Definition _get_id_severity_map : M (gmap (option string) (option string)) :=
  let cmd_args := ["cppcheck"; "--errorlist"; "--xml-version=2"] in
  match environ h !! "CPPCHECK_HOME" with
  | None => raise KeyError
  | Some home =>
    return_code <- SubProcController h cmd_args (Some home) print_log;
    if negb (return_code =? 0) then raise ConfigError
    else
      errorlist <- (fun fs => lift (read fs errorlist_path) fs);
      match fromstring h errorlist with
      | None => raise ParseError
      | Some root =>
        match find root "errors" with
        | None => raise TypeError
        | Some error_root => ret (id_severity_dict error_root)
        end
      end
  end.

(** [rule_list] is a list, so the function's [assert rule_list is not
    None] always holds; a rule that is not a key raises [KeyError]. *)
Definition _get_needed_visitors
    (id_severity_map : gmap (option string) (option string))
    (rule_list : list string) : result (gset (option string)) :=
  severities ← mapM (M := result)
    (fun rule_name =>
       match id_severity_map !! Some rule_name with
       | Some severity => Ok severity
       | None => Raise KeyError
       end) rule_list;
  Ok (list_to_set severities ∖ {[ Some "error" ]}).

Definition _error_callback (ln : string) : result unit :=
  if Py.contains ln "The command line is too long"
  then Raise AnalyzeTaskError
  else Ok tt.

(** [sep.join(items)]: an item that is [None] is a [TypeError]. *)
Definition join_items (sep : string) (items : list (option string)) : result string :=
  match mapM (M := option) id items with
  | Some l => Ok (Py.join sep l)
  | None => Raise TypeError
  end.

Definition DQUOTE : string := String "034"%char "".

Definition template : string :=
  "--template=" +:+ DQUOTE
  +:+ "{file}[CODEDOG]{line}[CODEDOG]{id}[CODEDOG]{severity}[CODEDOG]{message}"
  +:+ DQUOTE.

(** The command line that [_run_cppcheck] builds before it starts the
    tool.  A Python set is iterated in an order the language leaves
    open; [elements] stands for it. *)
Definition cppcheck_cmd_args (files_path : string) (rules : list string)
    (id_severity_map : gmap (option string) (option string))
    (CPPCHECK_HOME : string) : result (list string) :=
  let cmd_args := ["cppcheck"; "--quiet"; template; "--inconclusive"] in
  cmd_args ←
    (if bool_decide (rules = []) then
       Ok (cmd_args ++ ["--enable=warning,style,information";
                        "-j " +:+ cpu_count h])
     else
       visitors ← _get_needed_visitors id_severity_map rules;
       cmd_args ←
         (if bool_decide (visitors ≠ ∅) then
            categories ← join_items "," (elements visitors);
            Ok (cmd_args ++ ["--enable=" +:+ categories])
          else Ok cmd_args);
       Ok (if bool_decide ("unusedFunction" ∉ rules)
           then cmd_args ++ ["-j " +:+ cpu_count h]
           else cmd_args));
  let custom_rules :=
    get_dir_files h (Py.path_join CPPCHECK_HOME "custom_plugins") [".xml"] in
  let custom_rules := String.app "--rule-file=" <$> custom_rules in
  let custom_cfgs :=
    get_dir_files h (Py.path_join CPPCHECK_HOME "custom_cfg") [".cfg"] in
  let custom_cfgs := String.app "--library=" <$> custom_cfgs in
  Ok (cmd_args ++ custom_rules ++ custom_cfgs ++ ["--file-list=" +:+ files_path]).

Definition scan_result_path : string := "cppcheck_result.xml".

(** The locale warning that the shell may write ahead of the tool's
    own output. *)
Definition error_msg : string :=
  "/bin/sh: warning: setlocale: LC_ALL: cannot change locale (en_US.UTF-8)
".

(** The preamble removal of [_run_cppcheck]:
    [if s.startswith(error_msg): s = s[len(error_msg):]]. *)
Definition strip_preamble (scan_result : string) : string :=
  if Py.startswith scan_result error_msg
  then Py.slice_from (String.length error_msg) scan_result
  else scan_result.

(** The two lines of the [win32] branch of [_run_cppcheck]: the file is
    read with encoding gbk and written back with encoding utf-8. *)
Definition transcode (p : string) : M unit := fun fs =>
  match fs !! p with
  | None => Raise FileNotFoundError
  | Some content =>
    match gbk_to_utf8 h content with
    | None => Raise UnicodeDecodeError
    | Some result_content => write p result_content fs
    end
  end.

Definition _run_cppcheck (files_path : string) (rules : list string)
    (id_severity_map : gmap (option string) (option string)) : M string :=
  match environ h !! "CPPCHECK_HOME" with
  | None => raise KeyError
  | Some CPPCHECK_HOME =>
    cmd_args <- lift (cppcheck_cmd_args files_path rules id_severity_map CPPCHECK_HOME);
    _ <- SubProcController h cmd_args (Some CPPCHECK_HOME) _error_callback;
    found <- exists_ scan_result_path;
    if negb found then ret scan_result_path
    else
      _ <- (if String.eqb (platform h) "win32"
            then transcode scan_result_path
            else ret tt);
      scan_result <- (fun fs => lift (read fs scan_result_path) fs);
      if String.eqb scan_result "" then ret scan_result_path
      else
        let scan_result := strip_preamble scan_result in
        ret scan_result_path
  end.

Definition want_suffix : list string :=
  [".cpp"; ".cxx"; ".cc"; ".c++"; ".c"; ".tpp"; ".txx"].

(** The list comprehension of the incremental branch of [analyze]. *)
Definition incr_toscans (source_dir : string) (diffs : list Diff.t) : list string :=
  (fun diff => Py.replace (Py.path_join source_dir (Diff.path diff)) "/" "/")
    <$> filter (fun diff =>
                  Py.endswith_any (Diff.path diff) want_suffix = true
                  ∧ Diff.state diff ≠ "del") diffs.

(** The two lines of [analyze] that drop the rules the installed tool
    does not know.  The order in which Python lists the resulting set
    is left open by the language; [elements] stands for it, and only
    what is said of membership and of the absence of duplicates is a
    statement about the code. *)
Definition negotiated_rules (rules : list string)
    (supported_rules : gset (option string)) : list string :=
  let filtered_rules := filter (fun r => Some r ∉ supported_rules) rules in
  elements (list_to_set rules ∖ list_to_set filtered_rules : gset string).

(** The file selection at the head of [analyze]: the candidates of
    the chosen mode, passed through the path filter. *)
Definition select_files (params : Params.t) : list string :=
  let source_dir := Params.source_dir params in
  let incr_scan := Params.incr_scan params in
  let relpos := (String.length source_dir + 1)%nat in
  let toscans :=
    if incr_scan then incr_toscans source_dir (get_scm_diff h params)
    else (fun p => Py.replace p "/" "/") <$> get_dir_files h source_dir want_suffix in
  get_include_files h params toscans relpos.

Definition analyze (params : Params.t) : M (list Issue) :=
  let source_dir := Params.source_dir params in
  let work_dir := Params.work_dir params in
  let rules := Params.rules params in
  let files_path := Py.path_join work_dir "paths.txt" in
  let toscans := select_files params in
  if bool_decide (toscans = []) then ret []
  else
    _ <- write files_path (Py.join (String Py.LF "") toscans);
    id_severity_map <- _get_id_severity_map;
    let supported_rules := dom id_severity_map in
    let rules := negotiated_rules rules supported_rules in
    scan_result_path <- _run_cppcheck files_path rules id_severity_map;
    found <- exists_ scan_result_path;
    if negb found then ret []
    else fun fs =>
      lift (_format_result source_dir scan_result_path rules supported_rules fs) fs.

End Cppcheck.

(** The part of the command line that follows the category flags. *)
Definition cmd_tail (h : Host) (files_path CPPCHECK_HOME : string) : list string :=
  (String.app "--rule-file="
     <$> get_dir_files h (Py.path_join CPPCHECK_HOME "custom_plugins") [".xml"])
  ++ (String.app "--library="
        <$> get_dir_files h (Py.path_join CPPCHECK_HOME "custom_cfg") [".cfg"])
  ++ ["--file-list=" +:+ files_path].

(** The objects [check_tool_usable] can hand back, and how a caller's
    [if] reads them. *)
Inductive pyvalue : Set :=
| PyBool (b : bool)
| PyList (l : list string).

Definition truth (v : pyvalue) : bool :=
  match v with
  | PyBool b => b
  | PyList l => negb (bool_decide (l = []))
  end.

Definition check_tool_usable (h : Host) (tool_params : Params.t) : M pyvalue :=
  return_code <- SubProcController h ["cppcheck"; "--version"] None print_log;
  if negb (return_code =? 0) then ret (PyList [])
  else ret (PyList ["analyze"]).

(** ** A concrete host

    One installed tool with a three-rule catalog, used to evaluate the
    adapter on explicit inputs. *)

Module Example.

Definition catalog : element :=
  Element "results" ∅
    [Element "cppcheck" {[ "version" := "2.6" ]} [];
     Element "errors" ∅
       [Element "error" {[ "id" := "nullPointer"; "severity" := "error" ]} [];
        Element "error" {[ "id" := "missingInclude"; "severity" := "information" ]} [];
        Element "error" {[ "id" := "unusedVariable"; "severity" := "style" ]} []]].

Definition errors : element :=
  Element "errors" ∅
    [Element "error" {[ "id" := "nullPointer"; "severity" := "error" ]} [];
     Element "error" {[ "id" := "missingInclude"; "severity" := "information" ]} [];
     Element "error" {[ "id" := "unusedVariable"; "severity" := "style" ]} []].

Definition supported : gset (option string) :=
  {[ Some "nullPointer"; Some "missingInclude"; Some "unusedVariable" ]}.

Definition msg_text : string := "Null pointer dereference
".

Definition raw_line : string :=
  "/src/a.cpp[CODEDOG]12[CODEDOG]nullPointer[CODEDOG]error[CODEDOG]Null pointer dereference
".

Definition bad_line : string :=
  "/src/a.cpp[CODEDOG]twelve[CODEDOG]nullPointer[CODEDOG]error[CODEDOG]Null pointer dereference
".

Definition include_line : string :=
  "/src/a.cpp[CODEDOG]3[CODEDOG]missingInclude[CODEDOG]information[CODEDOG]Include file not found
".

Definition issue : Issue :=
  {| path := "a.cpp"; line := 12; column := "1";
     msg := msg_text; rule := "nullPointer" |}.

Definition diffs : list Diff.t :=
  [ {| Diff.path := "a.cpp"; Diff.state := "mod" |};
    {| Diff.path := "c.cpp"; Diff.state := "del" |};
    {| Diff.path := "b.h"; Diff.state := "add" |} ].

(** The tool writes [output] to the result file when [output] is
    given, and no file otherwise; the version query exits with
    [version_code]. *)
Definition host (output : option string) (version_code : Z) : Host := {|
  environ := {[ "CPPCHECK_HOME" := "/opt/cppcheck" ]};
  cpu_count := "4";
  get_scm_diff := fun _ => diffs;
  get_dir_files := fun d _ => if String.eqb d "/src" then ["/src/a.cpp"] else [];
  get_include_files := fun _ l _ => l;
  fromstring := fun _ => Some catalog;
  spawn := fun cmd _ fs =>
    if bool_decide ("--errorlist" ∈ cmd)
    then Ran {| return_code := 0; stderr_lines := [];
                fs_after := <[ "cppcheck_errorlist.xml" := "<results/>" ]> fs |}
    else if bool_decide ("--version" ∈ cmd)
    then Ran {| return_code := version_code; stderr_lines := []; fs_after := fs |}
    else Ran {| return_code := 0; stderr_lines := [];
                fs_after := match output with
                            | Some text => <[ "cppcheck_result.xml" := text ]> fs
                            | None => fs
                            end |};
  not_found_code := 127;
  platform := "linux";
  gbk_to_utf8 := fun content => Some content
|}.

(** A host on which the tool is not installed. *)
Definition bare_host : Host := {|
  environ := ∅;
  cpu_count := "4";
  get_scm_diff := fun _ => [];
  get_dir_files := fun _ _ => [];
  get_include_files := fun _ l _ => l;
  fromstring := fun _ => None;
  spawn := fun _ _ _ => NotFound;
  not_found_code := 127;
  platform := "linux";
  gbk_to_utf8 := fun content => Some content
|}.

(** The host [host None 0] with an XML parser that returns [doc]. *)
Definition host_with_catalog (doc : option element) : Host := {|
  environ := environ (host None 0);
  cpu_count := cpu_count (host None 0);
  get_scm_diff := get_scm_diff (host None 0);
  get_dir_files := get_dir_files (host None 0);
  get_include_files := get_include_files (host None 0);
  fromstring := fun _ => doc;
  spawn := spawn (host None 0);
  not_found_code := not_found_code (host None 0);
  platform := platform (host None 0);
  gbk_to_utf8 := gbk_to_utf8 (host None 0)
|}.

(** A host with a source file to scan, a diff of removed and header
    files only, and no [CPPCHECK_HOME]. *)
Definition removed_diffs : list Diff.t :=
  [ {| Diff.path := "c.cpp"; Diff.state := "del" |};
    {| Diff.path := "b.h"; Diff.state := "add" |} ].

Definition unconfigured_host : Host := {|
  environ := ∅;
  cpu_count := "4";
  get_scm_diff := fun _ => removed_diffs;
  get_dir_files := fun d _ => if String.eqb d "/src" then ["/src/a.cpp"] else [];
  get_include_files := fun _ l _ => l;
  fromstring := fun _ => None;
  spawn := fun _ _ _ => NotFound;
  not_found_code := 127;
  platform := "linux";
  gbk_to_utf8 := fun content => Some content
|}.

Definition params (r : list string) (incr : bool) : Params.t :=
  {| Params.source_dir := "/src"; Params.work_dir := "/work";
     Params.rules := r; Params.incr_scan := incr |}.

(** The file system after the manifest is written, and after the
    catalog is. *)
Definition fs_listed : gmap string string :=
  {[ "/work/paths.txt" := "/src/a.cpp" ]}.

Definition fs_discovered : gmap string string :=
  <[ "cppcheck_errorlist.xml" := "<results/>" ]> fs_listed.

End Example.

(** * Properties *)

(** ** The built-ins on explicit inputs *)

Example split_five_fields :
  Py.split "a[CODEDOG]12[CODEDOG]r[CODEDOG]s[CODEDOG]m" DELIM
  = ["a"; "12"; "r"; "s"; "m"].
Proof. reflexivity. Qed.

Example split_trailing_delimiter : Py.split "a[CODEDOG]" DELIM = ["a"; ""].
Proof. reflexivity. Qed.

Example split_no_overlap : Py.split "aXXXb" "XX" = ["a"; "Xb"].
Proof. reflexivity. Qed.

Example int_surrounding_space : Py.int " 12 " = Some 12.
Proof. reflexivity. Qed.

Example int_underscore : Py.int "-1_0" = Some (-10).
Proof. reflexivity. Qed.

Example int_double_underscore : Py.int "1__0" = None.
Proof. reflexivity. Qed.

Example int_sign_then_space : Py.int "+ 1" = None.
Proof. reflexivity. Qed.

Example int_separator_not_stripped : Py.int (String "028"%char "12") = None.
Proof. reflexivity. Qed.

Example int_no_break_space : Py.int (String "160"%char "12") = Some 12.
Proof. reflexivity. Qed.

Example path_join_relative : Py.path_join "/src" "a.cpp" = "/src/a.cpp".
Proof. reflexivity. Qed.

Example path_join_absolute : Py.path_join "/src" "/tmp/a.cpp" = "/tmp/a.cpp".
Proof. reflexivity. Qed.

(** A full scan that requests the rule it finds returns one issue; the
    same scan with no rule requested returns none, because the parser
    keeps only rules of the requested list. *)
Example analyze_requested_rule :
  fst <$> analyze (Example.host (Some Example.raw_line) 0)
            (Example.params ["nullPointer"] false) ∅
  = Ok [Example.issue].
Proof. vm_compute. reflexivity. Qed.

Example analyze_nothing_requested :
  fst <$> analyze (Example.host (Some Example.raw_line) 0)
            (Example.params [] false) ∅
  = Ok [].
Proof. vm_compute. reflexivity. Qed.

(** An incremental scan of a modified [a.cpp], a deleted [c.cpp] and an
    added [b.h] selects [a.cpp] alone. *)
Example incr_toscans_example : incr_toscans "/src" Example.diffs = ["/src/a.cpp"].
Proof. vm_compute. reflexivity. Qed.

(** ** Strings *)

Lemma startswith_slice (s p : string) :
  Py.startswith s p = true -> s = p +:+ Py.slice_from (String.length p) s.
Proof.
  unfold Py.startswith. revert s.
  induction p as [|a p IH]; intros s Hp; [reflexivity|].
  destruct s as [|b s]; simpl in Hp; [discriminate|].
  destruct (ascii_dec a b) as [->|]; [|discriminate].
  simpl. unfold String.app. simpl. f_equal. apply IH, Hp.
Qed.

Lemma lines_after_preamble (rest : string) :
  Py.lines_keepends (Py.universal_newlines (error_msg +:+ rest))
  = error_msg :: Py.lines_keepends (Py.universal_newlines rest).
Proof. reflexivity. Qed.

Lemma preamble_is_one_field : Py.split error_msg DELIM = [error_msg].
Proof. vm_compute. reflexivity. Qed.

(** ** The result parser, line by line *)

Lemma format_line_preamble relpos rules supported :
  format_line relpos rules supported error_msg = Ok None.
Proof. unfold format_line. rewrite preamble_is_one_field. reflexivity. Qed.

(** What a line must satisfy for the loop body to append an issue. *)
Lemma format_line_Some relpos rules supported ln i :
  format_line relpos rules supported ln = Ok (Some i) ->
  exists e0 e1 e3 n,
    Py.split ln DELIM = [e0; e1; rule i; e3; msg i]
    /\ ("" ∉ Py.split ln DELIM)
    /\ (Some (rule i) ∈ supported)
    /\ (rule i ∉ ["missingInclude"; "MissingIncludeSystem"])
    /\ (rule i ∈ rules)
    /\ Py.int e1 = Some n
    /\ i = {| path := Py.slice_from relpos e0; line := n; column := "1";
              msg := msg i; rule := rule i |}.
Proof.
  unfold format_line.
  destruct (Py.split ln DELIM) as [|e0 [|e1 [|r [|e3 [|e4 [|? ?]]]]]];
    simpl; try discriminate.
  case_bool_decide as Hempty; [discriminate|].
  case_bool_decide as Hsup; [discriminate|].
  case_bool_decide as Hdeny; [discriminate|].
  case_bool_decide as Hreq; [discriminate|].
  destruct (Py.int e1) as [n|] eqn:Hint; [|discriminate].
  intros [= <-]. simpl.
  exists e0, e1, e3, n.
  repeat split; assumption || (apply dec_stable; assumption).
Qed.

(** The loop only ever extends the list it was given, by the issues of
    the lines it accepts. *)
Lemma format_lines_Forall (P : Issue -> Prop) relpos rules supported lines :
  (forall ln i, ln ∈ lines ->
     format_line relpos rules supported ln = Ok (Some i) -> P i) ->
  forall issues out,
    Forall P issues ->
    format_lines relpos rules supported lines issues = Ok out ->
    Forall P out.
Proof.
  induction lines as [|ln rest IH]; intros Hbody issues out Hacc; simpl.
  - intros [= <-]. exact Hacc.
  - destruct (format_line relpos rules supported ln) as [[i|]|e] eqn:Hln;
      [| |discriminate].
    + apply IH.
      * intros ln' i' Hin. apply Hbody. by right.
      * apply Forall_app. split; [exact Hacc|].
        constructor; [|constructor]. eapply Hbody; [by left | exact Hln].
    + apply IH; [|exact Hacc].
      intros ln' i' Hin. apply Hbody. by right.
Qed.

(** When the body discards every line the loop returns its list as is,
    and [int] is never reached. *)
Lemma format_lines_all_discarded relpos rules supported lines issues :
  (forall ln, ln ∈ lines -> format_line relpos rules supported ln = Ok None) ->
  format_lines relpos rules supported lines issues = Ok issues.
Proof.
  induction lines as [|ln rest IH]; intros Hbody; simpl; [reflexivity|].
  rewrite (Hbody ln) by (by left).
  apply IH. intros ln' Hin. apply Hbody. by right.
Qed.

Lemma format_line_only_missingInclude relpos rules supported ln :
  rules ⊆ ["missingInclude"] ->
  format_line relpos rules supported ln = Ok None.
Proof.
  intros Hsub.
  destruct (format_line relpos rules supported ln) as [[i|]|e] eqn:Hln.
  - apply format_line_Some in Hln as (e0 & e1 & e3 & n & _ & _ & _ & Hdeny & Hreq & _).
    apply Hsub in Hreq. apply list_elem_of_singleton in Hreq.
    exfalso. apply Hdeny. rewrite Hreq. by left.
  - reflexivity.
  - exfalso. revert Hln. unfold format_line.
    destruct (Py.split ln DELIM) as [|e0 [|e1 [|r [|e3 [|e4 [|? ?]]]]]];
      simpl; try discriminate.
    case_bool_decide; [discriminate|].
    case_bool_decide; [discriminate|].
    case_bool_decide as Hdeny; [discriminate|].
    case_bool_decide as Hreq; [discriminate|].
    destruct (decide (r ∈ rules)) as [Hin|]; [|contradiction].
    apply Hsub in Hin. apply list_elem_of_singleton in Hin.
    exfalso. apply Hdeny. rewrite Hin. by left.
Qed.

Lemma lines_after_preamble_read (rest : string) :
  Py.lines_keepends (error_msg +:+ rest) = error_msg :: Py.lines_keepends rest.
Proof. reflexivity. Qed.

Ltac by_compute := apply (bool_decide_unpack _); vm_compute; exact I.

(** C1 (amended). A line that splits on the delimiter into exactly five
    non-empty fields, whose rule id is in the supported catalog, is not
    one of the two denylisted ids and is among the negotiated rules, and
    whose line field is accepted by [int], makes the loop of
    [_format_result] append exactly one issue: its path is the file
    field without its first [relpos] characters, its line the integer
    read from the line field, its column ["1"], its message and rule the
    fields as they are.  A line with another field count or with an
    empty field appends nothing. *)
Theorem format_result_line_amended relpos rules supported ln rest issues :
  (forall file lineno rule_id severity message n,
     Py.split ln DELIM = [file; lineno; rule_id; severity; message] ->
     "" ∉ [file; lineno; rule_id; severity; message] ->
     Some rule_id ∈ supported ->
     rule_id ∉ ["missingInclude"; "MissingIncludeSystem"] ->
     rule_id ∈ rules ->
     Py.int lineno = Some n ->
     format_lines relpos rules supported (ln :: rest) issues
     = format_lines relpos rules supported rest
         (issues ++ [{| path := Py.slice_from relpos file; line := n;
                        column := "1"; msg := message; rule := rule_id |}]))
  /\ (length (Py.split ln DELIM) ≠ 5%nat \/ "" ∈ Py.split ln DELIM ->
      format_lines relpos rules supported (ln :: rest) issues
      = format_lines relpos rules supported rest issues).
Proof.
  split.
  - intros file lineno rule_id severity message n Hsplit Hne Hsup Hdeny Hreq Hint.
    simpl. unfold format_line. rewrite Hsplit. simpl.
    rewrite (bool_decide_eq_false_2 _ Hne).
    rewrite bool_decide_eq_false_2 by (intros Hn; exact (Hn Hsup)).
    rewrite (bool_decide_eq_false_2 _ Hdeny).
    rewrite bool_decide_eq_false_2 by (intros Hn; exact (Hn Hreq)).
    rewrite Hint. reflexivity.
  - intros Hbad. simpl. unfold format_line.
    destruct (decide (length (Py.split ln DELIM) = 5%nat)) as [Hlen|Hlen].
    + destruct Hbad as [Hbad|Hbad]; [contradiction|].
      rewrite Hlen. simpl. rewrite (bool_decide_eq_true_2 _ Hbad). reflexivity.
    + apply Nat.eqb_neq in Hlen. rewrite Hlen. reflexivity.
Qed.

Lemma format_result_line_amended_witness :
  format_lines 5 ["nullPointer"] Example.supported [Example.raw_line] []
  = Ok [Example.issue].
Proof.
  apply (proj1 (format_result_line_amended
                  5 ["nullPointer"] Example.supported Example.raw_line [] [])
           "/src/a.cpp" "12" "nullPointer" "error"
           (Example.msg_text) 12);
    first [ reflexivity | by_compute ].
Defined.

(** C1, as stated, fails: a line with five non-empty fields and a rule
    id of the catalog yields no issue when that rule is not among the
    requested ones. *)
Lemma format_result_line_counterexample :
  Py.split Example.raw_line DELIM
  = ["/src/a.cpp"; "12"; "nullPointer"; "error"; Example.msg_text]
  /\ ("" ∉ Py.split Example.raw_line DELIM)
  /\ (Some "nullPointer" ∈ Example.supported)
  /\ _format_result "/src" "cppcheck_result.xml" ["unusedVariable"]
       Example.supported {[ "cppcheck_result.xml" := Example.raw_line ]}
     = Ok [].
Proof.
  split; [reflexivity|].
  split; [by_compute|].
  split; [by_compute|].
  vm_compute. reflexivity.
Qed.

(** C10. There is a line with five non-empty fields whose rule id passes
    every rule filter and whose line field is not a decimal integer: on
    it the loop body raises [ValueError], and so does [_format_result]
    on a result file that holds it, even after a well-formed line. *)
Theorem format_result_int_raises :
  exists ln file lineno rule_id severity message rules supported,
    Py.split ln DELIM = [file; lineno; rule_id; severity; message]
    /\ ("" ∉ [file; lineno; rule_id; severity; message])
    /\ (Some rule_id ∈ supported)
    /\ (rule_id ∉ ["missingInclude"; "MissingIncludeSystem"])
    /\ (rule_id ∈ rules)
    /\ Py.int lineno = None
    /\ (forall relpos, format_line relpos rules supported ln = Raise ValueError)
    /\ _format_result "/src" "cppcheck_result.xml" rules supported
         {[ "cppcheck_result.xml" := Example.raw_line +:+ ln ]}
       = Raise ValueError.
Proof.
  exists Example.bad_line, "/src/a.cpp", "twelve", "nullPointer", "error",
    Example.msg_text, ["nullPointer"], Example.supported.
  split; [reflexivity|].
  split; [by_compute|].
  split; [by_compute|].
  split; [by_compute|].
  split; [by_compute|].
  split; [reflexivity|].
  split; [intros relpos|]; vm_compute; reflexivity.
Qed.

(** ** Reading [analyze] backwards *)

Lemma run_cppcheck_path h files_path rules m fs p fs' :
  _run_cppcheck h files_path rules m fs = Ok (p, fs') -> p = scan_result_path.
Proof.
  unfold _run_cppcheck, bind, ret, raise, exists_, lift.
  intros H. repeat case_match; simplify_eq; reflexivity.
Qed.

(** Whatever [analyze] returns is either the empty list of one of its
    early exits or the parser's reading of the result file, under the
    negotiated rules and the catalog of the installed tool. *)
Lemma analyze_inv h params fs issues fs' :
  analyze h params fs = Ok (issues, fs') ->
  issues = []
  \/ exists m : gmap (option string) (option string),
       _format_result (Params.source_dir params) scan_result_path
         (negotiated_rules (Params.rules params) (dom m)) (dom m) fs'
       = Ok issues.
Proof.
  unfold analyze, bind, ret, write, exists_, lift.
  intros H.
  case_bool_decide; [left; congruence|].
  destruct (_get_id_severity_map h _) as [[m fs2]|] eqn:Hmap; [|discriminate].
  destruct (_run_cppcheck h _ _ m fs2) as [[p fs3]|] eqn:Hrun; [|discriminate].
  apply run_cppcheck_path in Hrun as ->.
  destruct (negb _); [left; congruence|].
  destruct (_format_result _ _ _ _ fs3) eqn:Hfmt; [|discriminate].
  right. exists m. congruence.
Qed.

Lemma negotiated_rules_spec rules supported r :
  r ∈ negotiated_rules rules supported <-> r ∈ rules /\ Some r ∈ supported.
Proof.
  unfold negotiated_rules.
  rewrite elem_of_elements, elem_of_difference, !elem_of_list_to_set,
    list_elem_of_filter.
  split.
  - intros [Hin Hnot]. split; [exact Hin|].
    apply dec_stable. intros Hn. apply Hnot. split; assumption.
  - intros [Hin Hsup]. split; [exact Hin|]. intros [Hn _]. exact (Hn Hsup).
Qed.

(** C4. No issue that [_format_result] returns carries one of the two
    denylisted rule ids, whatever was requested and whatever the catalog
    holds.  When no rule but ["missingInclude"] is requested the parser
    returns the empty list for every result file, and so does every
    run of [analyze] that returns. *)
Theorem denylisted_rules_never_emitted source_dir p rules supported fs :
  (forall issues i,
     _format_result source_dir p rules supported fs = Ok issues ->
     i ∈ issues ->
     rule i ≠ "missingInclude" /\ rule i ≠ "MissingIncludeSystem")
  /\ (rules ⊆ ["missingInclude"] -> is_Some (fs !! p) ->
      _format_result source_dir p rules supported fs = Ok [])
  /\ (forall h params fs0 issues fs1,
        Params.rules params = ["missingInclude"] ->
        analyze h params fs0 = Ok (issues, fs1) ->
        issues = []).
Proof.
  split; [|split].
  - intros issues i Hfmt Hin.
    unfold _format_result, readlines, read in Hfmt.
    destruct (fs !! p) as [content|]; [|discriminate]. simpl in Hfmt.
    eapply format_lines_Forall with
      (P := fun i => rule i ≠ "missingInclude" /\ rule i ≠ "MissingIncludeSystem")
      in Hfmt.
    + rewrite Forall_forall in Hfmt. apply Hfmt, Hin.
    + intros ln j _ Hj.
      apply format_line_Some in Hj as (_ & _ & _ & _ & _ & _ & _ & Hdeny & _).
      split; intros Heq; apply Hdeny; rewrite Heq.
      * by left.
      * right. by left.
    + constructor.
  - intros Hsub [content Hp].
    unfold _format_result, readlines, read. rewrite Hp. simpl.
    apply format_lines_all_discarded.
    intros ln _. by apply format_line_only_missingInclude.
  - intros h params fs0 issues fs1 Hrules Hrun.
    apply analyze_inv in Hrun as [->|[m Hfmt]]; [reflexivity|].
    unfold _format_result, readlines, read in Hfmt.
    destruct (fs1 !! scan_result_path) as [content|]; [|discriminate].
    simpl in Hfmt.
    rewrite format_lines_all_discarded in Hfmt; [congruence|].
    intros ln _. apply format_line_only_missingInclude.
    intros r Hr. apply negotiated_rules_spec in Hr as [Hr _].
    by rewrite Hrules in Hr.
Qed.

Lemma format_lines_skip_preamble relpos rules supported rest issues :
  format_lines relpos rules supported (error_msg :: rest) issues
  = format_lines relpos rules supported rest issues.
Proof.
  cbn [format_lines]. rewrite format_line_preamble. reflexivity.
Qed.

Lemma format_result_unfold source_dir p rules supported fs content :
  fs !! p = Some content ->
  _format_result source_dir p rules supported fs
  = format_lines (String.length source_dir + 1) rules supported
      (Py.lines_keepends (Py.universal_newlines content)) [].
Proof.
  intros Hp. unfold _format_result, readlines, read. rewrite Hp. reflexivity.
Qed.

(** X17. A result file that begins with the locale warning is parsed
    to the same issues as the file without that line, because the
    warning line has one field and the field-count test drops it; and
    for every result file the parser returns what it would return on the
    text left when the warning is removed from the file's content. *)
Theorem locale_preamble_ignored source_dir p rules supported fs :
  (forall rest,
     fs !! p = Some (error_msg +:+ rest) ->
     _format_result source_dir p rules supported fs
     = _format_result source_dir p rules supported (<[p := rest]> fs))
  /\ (forall content,
        fs !! p = Some content ->
        _format_result source_dir p rules supported fs
        = format_lines (String.length source_dir + 1) rules supported
            (Py.lines_keepends (strip_preamble (Py.universal_newlines content)))
            []).
Proof.
  split.
  - intros rest Hp.
    rewrite (format_result_unfold _ _ _ _ _ _ Hp).
    rewrite (format_result_unfold _ _ _ _ (<[p := rest]> fs) rest)
      by apply lookup_insert_eq.
    rewrite lines_after_preamble. apply format_lines_skip_preamble.
  - intros content Hp.
    rewrite (format_result_unfold _ _ _ _ _ _ Hp).
    unfold strip_preamble.
    destruct (Py.startswith (Py.universal_newlines content) error_msg) eqn:Hstart;
      [|reflexivity].
    apply startswith_slice in Hstart.
    rewrite Hstart at 1.
    rewrite lines_after_preamble_read. apply format_lines_skip_preamble.
Qed.

Lemma locale_preamble_ignored_witness :
  _format_result "/src" "cppcheck_result.xml" ["nullPointer"] Example.supported
    {[ "cppcheck_result.xml" := error_msg +:+ Example.raw_line ]}
  = _format_result "/src" "cppcheck_result.xml" ["nullPointer"] Example.supported
      (<[ "cppcheck_result.xml" := Example.raw_line ]>
         {[ "cppcheck_result.xml" := error_msg +:+ Example.raw_line ]}).
Proof.
  apply (proj1 (locale_preamble_ignored "/src" "cppcheck_result.xml"
                  ["nullPointer"] Example.supported
                  {[ "cppcheck_result.xml" := error_msg +:+ Example.raw_line ]})).
  vm_compute. reflexivity.
Defined.

Lemma denylisted_rules_never_emitted_witness :
  _format_result "/src" "cppcheck_result.xml" ["missingInclude"] Example.supported
    {[ "cppcheck_result.xml" := Example.include_line ]}
  = Ok [].
Proof.
  apply (proj1 (proj2 (denylisted_rules_never_emitted
                         "/src" "cppcheck_result.xml" ["missingInclude"]
                         Example.supported
                         {[ "cppcheck_result.xml" := Example.include_line ]}))).
  - intros r Hr. exact Hr.
  - exists Example.include_line. vm_compute. reflexivity.
Defined.

(** ** File selection *)

Lemma split_go_nonempty sep k s : Py.split_go sep k s ≠ [].
Proof.
  revert k. induction s as [|c s IH]; intros k; [done|].
  cbn [Py.split_go].
  destruct k as [|k]; [|apply IH].
  destruct (String.prefix sep (String c s)); [done|].
  destruct (Py.split_go sep 0 s); done.
Qed.

Lemma join_cons_char sep c f fs :
  Py.join sep (String c f :: fs) = String c (Py.join sep (f :: fs)).
Proof. destruct fs; reflexivity. Qed.

Lemma join_cons_empty sep l :
  l ≠ [] -> Py.join sep ("" :: l) = sep +:+ Py.join sep l.
Proof. destruct l; [done|reflexivity]. Qed.

(** On the modelled host [os.sep] is ["/"], and replacing it by ["/"]
    returns the path as it was. *)
Lemma replace_sep_id s : Py.replace s "/" "/" = s.
Proof.
  unfold Py.replace, Py.split.
  induction s as [|c s IH]; [reflexivity|].
  cbn [Py.split_go String.prefix].
  destruct (ascii_dec "/" c) as [<-|Hc].
  - assert (String.prefix "" s = true) as -> by (destruct s; reflexivity).
    cbn [String.length Nat.pred].
    rewrite join_cons_empty by apply split_go_nonempty.
    rewrite IH. reflexivity.
  - destruct (Py.split_go "/" 0 s) as [|f fs] eqn:Hgo.
    + by apply split_go_nonempty in Hgo.
    + rewrite join_cons_char, IH. reflexivity.
Qed.

Lemma endswith_app a s suf :
  Py.endswith s suf = true -> Py.endswith (a +:+ s) suf = true.
Proof.
  intros Hs. induction a as [|c a IH]; [exact Hs|].
  change (String c a +:+ s) with (String c (a +:+ s)).
  cbn [Py.endswith]. rewrite IH. apply orb_true_r.
Qed.

Lemma endswith_path_join a p suf :
  Py.endswith p suf = true -> Py.endswith (Py.path_join a p) suf = true.
Proof.
  intros Hp. unfold Py.path_join.
  destruct (Py.startswith p "/"); [exact Hp|].
  destruct (_ || _); repeat apply endswith_app; exact Hp.
Qed.

Lemma endswith_any_path_join a p sufs :
  Py.endswith_any p sufs = true -> Py.endswith_any (Py.path_join a p) sufs = true.
Proof.
  unfold Py.endswith_any. rewrite !existsb_exists.
  intros (suf & Hin & Hsuf). exists suf. split; [exact Hin|].
  by apply endswith_path_join.
Qed.

(** C5. In incremental mode the candidate list holds exactly the paths
    [os.path.join(source_dir, diff.path)] of the diff entries whose state
    is not ["del"] (the SCM collaborator's mark of a deleted file) and
    whose path ends in a suffix of the allow-list; every such candidate
    itself ends in a suffix of the allow-list; and a path filter that
    only removes paths keeps both facts for the list that [analyze]
    scans. *)
Theorem incremental_selection source_dir diffs p :
  (p ∈ incr_toscans source_dir diffs <->
   exists diff, diff ∈ diffs
     /\ Diff.state diff ≠ "del"
     /\ Py.endswith_any (Diff.path diff) want_suffix = true
     /\ p = Py.path_join source_dir (Diff.path diff))
  /\ (p ∈ incr_toscans source_dir diffs ->
      Py.endswith_any p want_suffix = true)
  /\ (forall h params,
        Params.incr_scan params = true ->
        Params.source_dir params = source_dir ->
        get_scm_diff h params = diffs ->
        (forall l n, get_include_files h params l n ⊆ l) ->
        p ∈ select_files h params ->
        Py.endswith_any p want_suffix = true
        /\ exists diff, diff ∈ diffs
             /\ Diff.state diff ≠ "del"
             /\ p = Py.path_join source_dir (Diff.path diff)).
Proof.
  assert (Hiff : p ∈ incr_toscans source_dir diffs <->
    exists diff, diff ∈ diffs
      /\ Diff.state diff ≠ "del"
      /\ Py.endswith_any (Diff.path diff) want_suffix = true
      /\ p = Py.path_join source_dir (Diff.path diff)).
  { unfold incr_toscans. rewrite list_elem_of_fmap. split.
    - intros (diff & -> & Hin). apply list_elem_of_filter in Hin as [[Hsuf Hst] Hin].
      exists diff. rewrite replace_sep_id. auto.
    - intros (diff & Hin & Hst & Hsuf & ->). exists diff.
      rewrite replace_sep_id. split; [reflexivity|].
      apply list_elem_of_filter. auto. }
  assert (Hsuf : p ∈ incr_toscans source_dir diffs ->
                 Py.endswith_any p want_suffix = true).
  { intros Hin. apply Hiff in Hin as (diff & _ & _ & Hsuf & ->).
    by apply endswith_any_path_join. }
  split; [exact Hiff|]. split; [exact Hsuf|].
  intros h params Hincr Hsd Hdiff Hfilter Hin.
  unfold select_files in Hin. rewrite Hincr, Hsd, Hdiff in Hin.
  apply Hfilter in Hin. split; [by apply Hsuf|].
  apply Hiff in Hin as (diff & ? & ? & _ & ?). eauto.
Qed.

Lemma incremental_selection_witness :
  Py.endswith_any "/src/a.cpp" want_suffix = true.
Proof.
  apply (proj1 (proj2 (incremental_selection "/src" Example.diffs "/src/a.cpp"))).
  by_compute.
Defined.

(** ** Rule negotiation and the command line *)

Lemma negotiated_rules_nil supported : negotiated_rules [] supported = [].
Proof.
  unfold negotiated_rules. apply elements_empty_iff.
  intros r. rewrite elem_of_difference, elem_of_list_to_set.
  split; [intros [Hr _]; inversion Hr | intros Hr; by apply not_elem_of_empty in Hr].
Qed.

(** Once the catalog is known, [analyze] is the scan under the
    negotiated rules followed by the parse under the same rules. *)
Lemma analyze_after_discovery h params fs m fs2 :
  select_files h params ≠ [] ->
  _get_id_severity_map h
    (<[Py.path_join (Params.work_dir params) "paths.txt"
       := Py.join (String Py.LF "") (select_files h params)]> fs)
  = Ok (m, fs2) ->
  analyze h params fs
  = match _run_cppcheck h (Py.path_join (Params.work_dir params) "paths.txt")
            (negotiated_rules (Params.rules params) (dom m)) m fs2 with
    | Raise e => Raise e
    | Ok (p, fs3) =>
      if bool_decide (is_Some (fs3 !! p))
      then match _format_result (Params.source_dir params) p
                   (negotiated_rules (Params.rules params) (dom m)) (dom m) fs3 with
           | Ok issues => Ok (issues, fs3)
           | Raise e => Raise e
           end
      else Ok ([], fs3)
    end.
Proof.
  intros Hsel Hmap. unfold analyze, bind, ret, write, exists_, lift.
  rewrite bool_decide_eq_false_2 by exact Hsel.
  rewrite Hmap.
  destruct (_run_cppcheck h _ _ m fs2) as [[p fs3]|]; [|reflexivity].
  destruct (bool_decide (is_Some (fs3 !! p))); reflexivity.
Qed.

(** C3. The rule list that [analyze] hands to the scan and to the parser
    holds exactly the requested rules that the catalog knows, each once;
    computing it cannot fail.  When nothing is requested the command
    line enables the categories warning, style and information. *)
Theorem negotiation (h : Host) (files_path : string) (R : list string)
    (m : gmap (option string) (option string)) (home : string) :
  (forall r, r ∈ negotiated_rules R (dom m) <-> r ∈ R /\ Some r ∈ dom m)
  /\ NoDup (negotiated_rules R (dom m))
  /\ cppcheck_cmd_args h files_path (negotiated_rules [] (dom m)) m home
     = Ok (["cppcheck"; "--quiet"; template; "--inconclusive";
            "--enable=warning,style,information"; "-j " +:+ cpu_count h]
           ++ cmd_tail h files_path home)
  /\ (forall params fs fs2 p fs3,
        Params.rules params = R ->
        select_files h params ≠ [] ->
        _get_id_severity_map h
          (<[Py.path_join (Params.work_dir params) "paths.txt"
             := Py.join (String Py.LF "") (select_files h params)]> fs)
        = Ok (m, fs2) ->
        _run_cppcheck h (Py.path_join (Params.work_dir params) "paths.txt")
          (negotiated_rules R (dom m)) m fs2 = Ok (p, fs3) ->
        is_Some (fs3 !! p) ->
        analyze h params fs
        = match _format_result (Params.source_dir params) p
                  (negotiated_rules R (dom m)) (dom m) fs3 with
          | Ok issues => Ok (issues, fs3)
          | Raise e => Raise e
          end).
Proof.
  split; [intros r; apply negotiated_rules_spec|].
  split; [apply NoDup_elements|].
  split.
  - rewrite negotiated_rules_nil. reflexivity.
  - intros params fs fs2 p fs3 HR Hsel Hmap Hrun Hfile.
    rewrite (analyze_after_discovery _ _ _ _ _ Hsel Hmap), HR, Hrun.
    by rewrite bool_decide_eq_true_2.
Qed.

Lemma mapM_severities (m : gmap (option string) (option string))
    (rule_list : list string) (severities : list (option string)) :
  Forall2 (fun r c => m !! Some r = Some c) rule_list severities ->
  mapM (M := result)
    (fun rule_name =>
       match m !! Some rule_name with
       | Some severity => Ok severity
       | None => Raise KeyError
       end) rule_list
  = Ok severities.
Proof.
  induction 1 as [|r c rest sevs Hc _ IH]; [reflexivity|].
  cbn [mapM]. rewrite Hc, IH. reflexivity.
Qed.

Lemma severities_exist (m : gmap (option string) (option string))
    (rule_list : list string) :
  (forall r, r ∈ rule_list -> Some r ∈ dom m) ->
  exists severities, Forall2 (fun r c => m !! Some r = Some c) rule_list severities.
Proof.
  induction rule_list as [|r rest IH]; intros Hkeys.
  - exists []. constructor.
  - destruct IH as [sevs Hall].
    { intros r' Hr'. apply Hkeys. by right. }
    assert (Some r ∈ dom m) as Hr by (apply Hkeys; by left).
    apply elem_of_dom in Hr as [c Hc].
    exists (c :: sevs). by constructor.
Qed.

(** With every rule a key of the map, [_get_needed_visitors] returns the
    severities of the rules, ["error"] left out. *)
Lemma needed_visitors_spec (m : gmap (option string) (option string))
    (rule_list : list string) :
  (forall r, r ∈ rule_list -> Some r ∈ dom m) ->
  exists visitors,
    _get_needed_visitors m rule_list = Ok visitors
    /\ forall c, c ∈ visitors <->
         (exists r, r ∈ rule_list /\ m !! Some r = Some c) /\ c ≠ Some "error".
Proof.
  intros Hkeys.
  destruct (severities_exist m rule_list Hkeys) as [sevs Hall].
  exists (list_to_set sevs ∖ {[ Some "error" ]}). split.
  - unfold _get_needed_visitors. rewrite (mapM_severities _ _ _ Hall). reflexivity.
  - intros c. rewrite elem_of_difference, elem_of_list_to_set, elem_of_singleton.
    apply and_iff_compat_r. split.
    + intros Hc. apply list_elem_of_lookup in Hc as [i Hi].
      destruct (Forall2_lookup_r _ _ _ _ _ Hall Hi) as (r & Hr & Hrc).
      exists r. split; [|exact Hrc]. by eapply list_elem_of_lookup_2.
    + intros (r & Hr & Hrc). apply list_elem_of_lookup in Hr as [i Hi].
      destruct (Forall2_lookup_l _ _ _ _ _ Hall Hi) as (c' & Hc' & Hrc').
      rewrite Hrc in Hrc'. injection Hrc' as <-. by eapply list_elem_of_lookup_2.
Qed.

Lemma join_items_strings sep (categories : list string) :
  join_items sep (Some <$> categories) = Ok (Py.join sep categories).
Proof.
  unfold join_items.
  assert (mapM (M := option) id (Some <$> categories) = Some categories) as ->;
    [|reflexivity].
  apply mapM_Some. induction categories; constructor; auto.
Qed.

(** C7. For a non-empty negotiated rule list the categories put in the
    enable flag are the severities that the map gives the rules of the
    list, without ["error"]: [_get_needed_visitors] returns that set, and
    the command line carries it in one [--enable=] argument, or carries
    no such argument when the set is empty. *)
Theorem enable_flag_categories (h : Host) (files_path : string) (R : list string)
    (m : gmap (option string) (option string)) (home : string) :
  negotiated_rules R (dom m) ≠ [] ->
  exists visitors : gset (option string),
    _get_needed_visitors m (negotiated_rules R (dom m)) = Ok visitors
    /\ (forall c, c ∈ visitors <->
          (exists r, r ∈ negotiated_rules R (dom m) /\ m !! Some r = Some c)
          /\ c ≠ Some "error")
    /\ (Some "error" ∉ visitors)
    /\ (forall categories : list string,
          elements visitors = Some <$> categories ->
          ("error" ∉ categories)
          /\ cppcheck_cmd_args h files_path (negotiated_rules R (dom m)) m home
             = Ok (["cppcheck"; "--quiet"; template; "--inconclusive"]
                   ++ (if bool_decide (visitors ≠ ∅)
                       then ["--enable=" +:+ Py.join "," categories] else [])
                   ++ (if bool_decide ("unusedFunction" ∉ negotiated_rules R (dom m))
                       then ["-j " +:+ cpu_count h] else [])
                   ++ cmd_tail h files_path home)).
Proof.
  intros Hne.
  destruct (needed_visitors_spec m (negotiated_rules R (dom m))) as (V & HV & Hmem).
  { intros r Hr. by apply negotiated_rules_spec in Hr as [_ ?]. }
  exists V. split; [exact HV|]. split; [exact Hmem|].
  assert (Some "error" ∉ V) as Herr.
  { intros Hin. apply Hmem in Hin as [_ Hin]. by apply Hin. }
  split; [exact Herr|].
  intros categories Hcat. split.
  - intros Hin. apply Herr. apply elem_of_elements. rewrite Hcat.
    apply list_elem_of_fmap. by exists "error".
  - unfold cppcheck_cmd_args.
    rewrite bool_decide_eq_false_2 by exact Hne.
    rewrite HV. cbn [mbind result_bind].
    rewrite Hcat, join_items_strings.
    destruct (bool_decide (V ≠ ∅)), (bool_decide (_ ∉ _)); reflexivity.
Qed.

(** ** The scan and a missing result file *)

(** C6. When the tool has run and left no result file, [_run_cppcheck]
    returns the path of the file without raising, and [analyze], finding
    no file at that path, returns the empty issue list without
    raising. *)
Theorem missing_result_is_empty (h : Host) :
  (forall files_path rules (m : gmap (option string) (option string))
          fs home args rc fs',
     environ h !! "CPPCHECK_HOME" = Some home ->
     cppcheck_cmd_args h files_path rules m home = Ok args ->
     SubProcController h args (Some home) _error_callback fs = Ok (rc, fs') ->
     fs' !! scan_result_path = None ->
     _run_cppcheck h files_path rules m fs = Ok (scan_result_path, fs'))
  /\ (forall params fs (m : gmap (option string) (option string)) fs2 p fs3,
        select_files h params ≠ [] ->
        _get_id_severity_map h
          (<[Py.path_join (Params.work_dir params) "paths.txt"
             := Py.join (String Py.LF "") (select_files h params)]> fs)
        = Ok (m, fs2) ->
        _run_cppcheck h (Py.path_join (Params.work_dir params) "paths.txt")
          (negotiated_rules (Params.rules params) (dom m)) m fs2 = Ok (p, fs3) ->
        fs3 !! p = None ->
        analyze h params fs = Ok ([], fs3)).
Proof.
  split.
  - intros files_path rules m fs home args rc fs' Henv Hargs Hproc Hnone.
    unfold _run_cppcheck, bind, lift, exists_, ret.
    rewrite Henv, Hargs, Hproc, Hnone.
    rewrite bool_decide_eq_false_2 by (intros [? ?]; discriminate).
    reflexivity.
  - intros params fs m fs2 p fs3 Hsel Hmap Hrun Hnone.
    rewrite (analyze_after_discovery _ _ _ _ _ Hsel Hmap), Hrun, Hnone.
    rewrite bool_decide_eq_false_2 by (intros [? ?]; discriminate).
    reflexivity.
Qed.

(** ** Discovery of the supported rules *)

Lemma each_line_print_log ls : each_line print_log ls = Ok tt.
Proof. induction ls as [|l ls IH]; [reflexivity|exact IH]. Qed.

Lemma id_severity_dict_last tag attrib before error after :
  (forall e, e ∈ after -> get e "id" ≠ get error "id") ->
  id_severity_dict (Element tag attrib (before ++ error :: after))
    !! get error "id"
  = Some (get error "severity").
Proof.
  unfold id_severity_dict. cbn [iter]. rewrite foldl_app. cbn [foldl].
  generalize (foldl
    (fun (m : gmap (option string) (option string)) e =>
       <[get e "id" := get e "severity"]> m) ∅ before).
  induction after as [|e after IH] using rev_ind; intros m0 Hlater.
  - apply lookup_insert_eq.
  - rewrite foldl_app. cbn [foldl]. rewrite lookup_insert_ne.
    + apply IH. intros e' He'. apply Hlater. apply elem_of_app. by left.
    + apply Hlater. apply elem_of_app. right. by left.
Qed.

Lemma id_severity_dict_dom error_root k :
  k ∈ dom (id_severity_dict error_root) <->
  exists error, error ∈ iter error_root /\ get error "id" = k.
Proof.
  unfold id_severity_dict.
  induction (iter error_root) as [|e l IH] using rev_ind.
  - cbn [foldl]. rewrite dom_empty. split.
    + intros Hk. by apply not_elem_of_empty in Hk.
    + intros (e & He & _). inversion He.
  - rewrite foldl_app. cbn [foldl]. rewrite dom_insert, elem_of_union,
      elem_of_singleton, IH. split.
    + intros [->|(e' & He' & Hk)].
      * exists e. split; [|reflexivity]. apply elem_of_app. right. by left.
      * exists e'. split; [|exact Hk]. apply elem_of_app. by left.
    + intros (e' & He' & Hk). apply elem_of_app in He' as [He'|He'].
      * right. by exists e'.
      * apply list_elem_of_singleton in He' as ->. by left.
Qed.

(** C8. [_get_id_severity_map] raises [ConfigError] exactly when the
    errorlist process is run and [wait] reports a non-zero code.  When
    the code is zero and the catalog written by the tool parses to a
    document with an [errors] element, it returns the map whose keys are
    the ids of the catalog and which gives each id the severity of its
    last entry. *)
Theorem id_severity_map_discovery (h : Host) (fs : gmap string string) :
  (_get_id_severity_map h fs = Raise ConfigError <->
   exists home rc fs',
     environ h !! "CPPCHECK_HOME" = Some home
     /\ SubProcController h ["cppcheck"; "--errorlist"; "--xml-version=2"]
          (Some home) print_log fs = Ok (rc, fs')
     /\ rc ≠ 0)
  /\ (forall home fs' errorlist root error_root,
        environ h !! "CPPCHECK_HOME" = Some home ->
        SubProcController h ["cppcheck"; "--errorlist"; "--xml-version=2"]
          (Some home) print_log fs = Ok (0, fs') ->
        read fs' errorlist_path = Ok errorlist ->
        fromstring h errorlist = Some root ->
        find root "errors" = Some error_root ->
        _get_id_severity_map h fs = Ok (id_severity_dict error_root, fs')
        /\ (forall k, k ∈ dom (id_severity_dict error_root) <->
              exists error, error ∈ iter error_root /\ get error "id" = k)
        /\ (forall before error after,
              iter error_root = before ++ error :: after ->
              (forall e, e ∈ after -> get e "id" ≠ get error "id") ->
              id_severity_dict error_root !! get error "id"
              = Some (get error "severity"))).
Proof.
  split.
  - unfold _get_id_severity_map, bind, raise, ret, lift.
    destruct (environ h !! "CPPCHECK_HOME") as [home|] eqn:Henv.
    + destruct (SubProcController h _ (Some home) print_log fs)
        as [[rc fs']|e] eqn:Hproc.
      * destruct (rc =? 0) eqn:Hrc; cbn [negb].
        -- apply Z.eqb_eq in Hrc as ->. split.
           ++ intros H. exfalso. unfold read in H.
              repeat case_match; simplify_eq.
           ++ intros (? & rc & ? & ? & Heq & Hrc). simplify_eq.
              rewrite Hproc in Heq. simplify_eq.
        -- apply Z.eqb_neq in Hrc. split; [|reflexivity].
           intros _. exists home, rc, fs'. auto.
      * split.
        -- intros [= ->]. exfalso. revert Hproc. unfold SubProcController.
           destruct (spawn h _ _ fs); [discriminate|].
           rewrite each_line_print_log. discriminate.
        -- intros (? & ? & ? & ? & Heq & _). simplify_eq.
           rewrite Hproc in Heq. discriminate.
    + split; [discriminate|]. intros (? & ? & ? & ? & _). discriminate.
  - intros home fs' errorlist root error_root Henv Hproc Hread Hparse Hfind.
    split; [|split].
    + unfold _get_id_severity_map, bind, raise, ret, lift.
      rewrite Henv, Hproc. cbn [Z.eqb negb]. rewrite Hread, Hparse, Hfind.
      reflexivity.
    + apply id_severity_dict_dom.
    + intros before error after Hiter Hlater.
      destruct error_root as [tag attrib children]. cbn [iter] in Hiter.
      subst children. by apply id_severity_dict_last.
Qed.

(** ** The availability probe *)

(** C9 (amended). With a non-zero code reported for a binary that cannot
    be started, [check_tool_usable] never raises; it returns the empty
    list, which a caller's test reads as false, when the binary is absent
    or the version query exits with a non-zero code, and the list
    [["analyze"]], which reads as true, when the query exits with code
    zero. *)
Theorem check_tool_usable_list (h : Host) (tool_params : Params.t)
    (fs : gmap string string) :
  not_found_code h ≠ 0 ->
  (exists v fs', check_tool_usable h tool_params fs = Ok (v, fs'))
  /\ (spawn h ["cppcheck"; "--version"] None fs = NotFound ->
      check_tool_usable h tool_params fs = Ok (PyList [], fs))
  /\ (forall p, spawn h ["cppcheck"; "--version"] None fs = Ran p ->
        return_code p ≠ 0 ->
        check_tool_usable h tool_params fs = Ok (PyList [], fs_after p))
  /\ (forall p, spawn h ["cppcheck"; "--version"] None fs = Ran p ->
        return_code p = 0 ->
        check_tool_usable h tool_params fs = Ok (PyList ["analyze"], fs_after p))
  /\ truth (PyList []) = false
  /\ truth (PyList ["analyze"]) = true.
Proof.
  intros Hcode.
  unfold check_tool_usable, bind, ret, SubProcController.
  destruct (spawn h _ None fs) as [|p] eqn:Hspawn.
  - apply Z.eqb_neq in Hcode. rewrite Hcode. cbn [negb].
    repeat split; eauto; discriminate.
  - rewrite each_line_print_log. cbn [mbind result_bind].
    destruct (return_code p =? 0) eqn:Hrc; cbn [negb].
    + apply Z.eqb_eq in Hrc.
      repeat split; eauto; try discriminate.
      * intros ? [= <-] ?. contradiction.
      * by intros ? [= <-] _.
    + apply Z.eqb_neq in Hrc.
      repeat split; eauto; try discriminate.
      * by intros ? [= <-] _.
      * intros ? [= <-] ?. contradiction.
Qed.

(** C9, as stated, fails: when the version query exits with code zero
    the probe returns the list [["analyze"]], not the boolean true. *)
Lemma check_tool_usable_counterexample :
  SubProcController (Example.host None 0) ["cppcheck"; "--version"] None
    print_log ∅ = Ok (0, ∅)
  /\ check_tool_usable (Example.host None 0) (Example.params [] false) ∅
     = Ok (PyList ["analyze"], ∅)
  /\ check_tool_usable (Example.host None 0) (Example.params [] false) ∅
     ≠ Ok (PyBool true, ∅).
Proof.
  split; [reflexivity|]. split; [reflexivity|].
  intros H. vm_compute in H. discriminate H.
Qed.

Lemma check_tool_usable_list_witness :
  check_tool_usable Example.bare_host (Example.params [] false) ∅
  = Ok (PyList [], ∅).
Proof.
  apply (proj1 (proj2 (check_tool_usable_list
                         Example.bare_host (Example.params [] false) ∅
                         ltac:(discriminate)))).
  reflexivity.
Defined.

Lemma id_severity_map_discovery_witness :
  _get_id_severity_map (Example.host None 0) Example.fs_listed
  = Ok (id_severity_dict Example.errors, Example.fs_discovered).
Proof.
  apply (proj1 (proj2 (id_severity_map_discovery (Example.host None 0)
                         Example.fs_listed)
                  "/opt/cppcheck" Example.fs_discovered "<results/>"
                  Example.catalog Example.errors
                  eq_refl eq_refl eq_refl eq_refl eq_refl)).
Defined.

Lemma missing_result_is_empty_witness :
  analyze (Example.host None 0) (Example.params ["nullPointer"] false) ∅
  = Ok ([], Example.fs_discovered).
Proof.
  apply (proj2 (missing_result_is_empty (Example.host None 0))
           (Example.params ["nullPointer"] false) ∅
           (id_severity_dict Example.errors) Example.fs_discovered
           scan_result_path Example.fs_discovered).
  - vm_compute. discriminate.
  - vm_compute. reflexivity.
  - vm_compute. reflexivity.
  - vm_compute. reflexivity.
Defined.

Lemma negotiation_witness :
  analyze (Example.host (Some Example.raw_line) 0)
    (Example.params ["nullPointer"; "noSuchRule"] false) ∅
  = Ok ([Example.issue],
        <[ "cppcheck_result.xml" := Example.raw_line ]> Example.fs_discovered).
Proof.
  rewrite (proj2 (proj2 (proj2 (negotiation
             (Example.host (Some Example.raw_line) 0) "/work/paths.txt"
             ["nullPointer"; "noSuchRule"] (id_severity_dict Example.errors)
             "/opt/cppcheck")))
           (Example.params ["nullPointer"; "noSuchRule"] false) ∅
           Example.fs_discovered scan_result_path
           (<[ "cppcheck_result.xml" := Example.raw_line ]> Example.fs_discovered)).
  - vm_compute. reflexivity.
  - reflexivity.
  - vm_compute. discriminate.
  - vm_compute. reflexivity.
  - vm_compute. reflexivity.
  - vm_compute. eauto.
Defined.

Lemma enable_flag_categories_witness :
  exists visitors : gset (option string),
    _get_needed_visitors (id_severity_dict Example.errors)
      (negotiated_rules ["nullPointer"; "unusedVariable"]
         (dom (id_severity_dict Example.errors)))
    = Ok visitors
    /\ (Some "error" ∉ visitors).
Proof.
  destruct (enable_flag_categories (Example.host None 0) "/work/paths.txt"
              ["nullPointer"; "unusedVariable"]
              (id_severity_dict Example.errors) "/opt/cppcheck")
    as (visitors & Hv & _ & Herr & _).
  - vm_compute. discriminate.
  - exists visitors. split; assumption.
Defined.

(** * Further properties of the adapter *)

(** ** The fatal stderr pattern *)

Lemma prefix_app_iff (p s : string) :
  String.prefix p s = true <-> exists r, s = p +:+ r.
Proof.
  split.
  - intros Hp. exists (Py.slice_from (String.length p) s).
    by apply startswith_slice.
  - intros [r ->]. induction p as [|c p IH]; [by destruct r|].
    change (String c p +:+ r) with (String c (p +:+ r)). cbn [String.prefix].
    destruct (ascii_dec c c); [exact IH|contradiction].
Qed.

(** [s.find(pat) != -1] holds exactly when [pat] occurs in [s]. *)
Lemma contains_spec (s pat : string) :
  Py.contains s pat = true <-> exists a b, s = a +:+ pat +:+ b.
Proof.
  split.
  - induction s as [|c s IH]; cbn [Py.contains].
    + rewrite orb_false_r. intros Hp. apply prefix_app_iff in Hp as [r Hr].
      by exists "", r.
    + intros [Hp|Hs]%orb_true_iff.
      * apply prefix_app_iff in Hp as [r Hr]. by exists "", r.
      * destruct (IH Hs) as (a & b & ->). by exists (String c a), b.
  - intros (a & b & ->). induction a as [|c a IH].
    + assert (String.prefix pat (pat +:+ b) = true) as Hp
        by (apply prefix_app_iff; eauto).
      change ("" +:+ pat +:+ b) with (pat +:+ b).
      destruct (pat +:+ b); cbn [Py.contains]; rewrite Hp; reflexivity.
    + change (String c a +:+ pat +:+ b) with (String c (a +:+ pat +:+ b)).
      cbn [Py.contains]. rewrite IH. apply orb_true_r.
Qed.

Lemma each_line_error_callback (ls : list string) :
  (each_line _error_callback ls = Ok tt
   /\ forall ln, ln ∈ ls -> Py.contains ln "The command line is too long" = false)
  \/ (each_line _error_callback ls = Raise AnalyzeTaskError
      /\ exists ln, ln ∈ ls
           /\ Py.contains ln "The command line is too long" = true).
Proof.
  induction ls as [|l ls IH].
  - left. split; [reflexivity|]. intros ln Hln. inversion Hln.
  - assert (Hstep : each_line _error_callback (l :: ls)
                    = if Py.contains l "The command line is too long"
                      then Raise AnalyzeTaskError
                      else each_line _error_callback ls).
    { cbn [each_line]. unfold _error_callback.
      by destruct (Py.contains l _). }
    rewrite Hstep.
    destruct (Py.contains l "The command line is too long") eqn:Hl.
    + right. split; [reflexivity|]. exists l. split; [by left|exact Hl].
    + destruct IH as [[Hok Hnone]|[Hraise (ln & Hln & Hc)]].
      * left. split; [exact Hok|].
        intros ln [->|Hln]%elem_of_cons; [exact Hl|by apply Hnone].
      * right. split; [exact Hraise|]. exists ln. split; [by right|exact Hc].
Qed.

(** X1. [_error_callback] raises [AnalyzeTaskError] exactly on the
    lines that have ["The command line is too long"] as a substring and
    returns on every other line.  With a runner that hands each stderr
    line of the tool to the callback, [_run_cppcheck] therefore raises
    [AnalyzeTaskError] exactly when the tool has written such a line. *)
Theorem fatal_stderr_line_aborts (h : Host) (files_path : string)
    (rules : list string) (m : gmap (option string) (option string))
    (fs : gmap string string) (home : string) (args : list string) (p : proc) :
  (forall ln,
     (_error_callback ln = Raise AnalyzeTaskError <->
      exists a b, ln = a +:+ "The command line is too long" +:+ b)
     /\ (_error_callback ln = Raise AnalyzeTaskError \/ _error_callback ln = Ok tt))
  /\ (environ h !! "CPPCHECK_HOME" = Some home ->
      cppcheck_cmd_args h files_path rules m home = Ok args ->
      spawn h args (Some home) fs = Ran p ->
      (_run_cppcheck h files_path rules m fs = Raise AnalyzeTaskError <->
       exists ln a b, ln ∈ stderr_lines p
         /\ ln = a +:+ "The command line is too long" +:+ b)).
Proof.
  split.
  - intros ln. unfold _error_callback.
    destruct (Py.contains ln "The command line is too long") eqn:Hc.
    + split; [|by left]. split; [intros _; by apply contains_spec|reflexivity].
    + split; [|by right]. split; [discriminate|].
      intros Hex. apply contains_spec in Hex. congruence.
  - intros Henv Hargs Hspawn.
    unfold _run_cppcheck, bind, lift, SubProcController.
    rewrite Henv, Hargs, Hspawn.
    destruct (each_line_error_callback (stderr_lines p))
      as [[Hok Hnone]|[Hraise (ln & Hln & Hc)]].
    + rewrite Hok. cbv [mbind result_bind]. split.
      * intros Hrun. exfalso. revert Hrun.
        unfold exists_, transcode, write, read, ret.
        repeat case_match; simplify_eq; discriminate.
      * intros (ln & a & b & Hln & Heq). exfalso.
        specialize (Hnone ln Hln).
        assert (Py.contains ln "The command line is too long" = true)
          by (apply contains_spec; eauto).
        congruence.
    + rewrite Hraise. cbv [mbind result_bind]. split; [|reflexivity].
      intros _. apply contains_spec in Hc as (a & b & ->). eauto.
Qed.

(** ** The parser on a whole file *)

Lemma format_lines_app relpos rules supported l1 l2 issues :
  format_lines relpos rules supported (l1 ++ l2) issues
  = match format_lines relpos rules supported l1 issues with
    | Ok out => format_lines relpos rules supported l2 out
    | Raise e => Raise e
    end.
Proof.
  revert issues. induction l1 as [|ln l1 IH]; intros issues; [reflexivity|].
  cbn [app format_lines].
  destruct (format_line relpos rules supported ln) as [[i|]|e];
    [apply IH|apply IH|reflexivity].
Qed.

Lemma format_lines_results relpos rules supported lines results issues :
  Forall2 (fun ln r => format_line relpos rules supported ln = Ok r)
    lines results ->
  format_lines relpos rules supported lines issues
  = Ok (issues ++ omap id results).
Proof.
  intros Hall. revert issues.
  induction Hall as [|ln r lines results Hln _ IH]; intros issues.
  - cbn [format_lines omap]. by rewrite app_nil_r.
  - cbn [format_lines]. rewrite Hln. destruct r as [i|]; cbn [omap id].
    + rewrite IH. cbn. by rewrite <- app_assoc.
    + apply IH.
Qed.

(** X2. The parser keeps the order of the lines and drops no repeated
    finding: the lines [l1 ++ l2] are parsed as [l1] and then [l2] on the
    list built so far, and when no line raises the result is the list it
    started from followed by the issues of the accepted lines, line by
    line. *)
Theorem parser_keeps_order relpos rules supported issues :
  (forall l1 l2,
     format_lines relpos rules supported (l1 ++ l2) issues
     = match format_lines relpos rules supported l1 issues with
       | Ok out => format_lines relpos rules supported l2 out
       | Raise e => Raise e
       end)
  /\ (forall lines results,
        Forall2 (fun ln r => format_line relpos rules supported ln = Ok r)
          lines results ->
        format_lines relpos rules supported lines issues
        = Ok (issues ++ omap id results))
  /\ (forall lines out,
        format_lines relpos rules supported lines issues = Ok out ->
        exists new, out = issues ++ new /\ (length new <= length lines)%nat).
Proof.
  split; [intros; apply format_lines_app|].
  split; [intros; by apply format_lines_results|].
  intros lines. revert issues.
  induction lines as [|ln lines IH]; intros issues out; cbn [format_lines].
  - intros [= <-]. exists []. split; [by rewrite app_nil_r|reflexivity].
  - destruct (format_line relpos rules supported ln) as [[i|]|e];
      [| |discriminate]; intros Hout.
    + apply IH in Hout as (new & -> & Hlen). exists (i :: new).
      split; [by rewrite <- app_assoc|]. cbn [length]. lia.
    + apply IH in Hout as (new & -> & Hlen). exists new.
      split; [reflexivity|]. cbn [length]. lia.
Qed.

Lemma format_lines_Raise relpos rules supported lines issues e :
  format_lines relpos rules supported lines issues = Raise e ->
  exists ln, ln ∈ lines /\ format_line relpos rules supported ln = Raise e.
Proof.
  revert issues. induction lines as [|ln lines IH]; intros issues;
    cbn [format_lines]; [discriminate|].
  destruct (format_line relpos rules supported ln) as [[i|]|e'] eqn:Hln.
  - intros H. apply IH in H as (ln' & Hin & H). exists ln'. split; [by right|exact H].
  - intros H. apply IH in H as (ln' & Hin & H). exists ln'. split; [by right|exact H].
  - intros [= ->]. exists ln. split; [by left|exact Hln].
Qed.

Lemma format_line_Raise relpos rules supported ln e :
  format_line relpos rules supported ln = Raise e ->
  e = ValueError
  /\ exists e0 e1 r e3 e4,
       Py.split ln DELIM = [e0; e1; r; e3; e4]
       /\ ("" ∉ [e0; e1; r; e3; e4])
       /\ (Some r ∈ supported)
       /\ (r ∉ ["missingInclude"; "MissingIncludeSystem"])
       /\ (r ∈ rules)
       /\ Py.int e1 = None.
Proof.
  unfold format_line.
  destruct (Py.split ln DELIM) as [|e0 [|e1 [|r [|e3 [|e4 [|? ?]]]]]];
    cbn [length Nat.eqb negb]; try discriminate.
  case_bool_decide as Hempty; [discriminate|].
  case_bool_decide as Hsup; [discriminate|].
  case_bool_decide as Hdeny; [discriminate|].
  case_bool_decide as Hreq; [discriminate|].
  destruct (Py.int e1) eqn:Hint; [discriminate|].
  intros [= <-]. split; [reflexivity|].
  exists e0, e1, r, e3, e4.
  repeat split; assumption || (apply dec_stable; assumption).
Qed.

(** X3. The parsing loop raises nothing but [ValueError]: its body
    raises exactly on a line that has five non-empty fields, passes the
    three rule filters and has a line field that [int] rejects, and the
    loop raises exactly when one of its lines makes the body raise.
    Before the loop, a path with no file gives [FileNotFoundError]. *)
Theorem format_result_failures relpos rules supported :
  (forall ln e,
     format_line relpos rules supported ln = Raise e <->
     e = ValueError
     /\ exists e0 e1 r e3 e4,
          Py.split ln DELIM = [e0; e1; r; e3; e4]
          /\ ("" ∉ [e0; e1; r; e3; e4])
          /\ (Some r ∈ supported)
          /\ (r ∉ ["missingInclude"; "MissingIncludeSystem"])
          /\ (r ∈ rules)
          /\ Py.int e1 = None)
  /\ (forall lines issues e,
        format_lines relpos rules supported lines issues = Raise e <->
        exists ln, ln ∈ lines
          /\ format_line relpos rules supported ln = Raise e)
  /\ (forall source_dir p fs,
        fs !! p = None ->
        _format_result source_dir p rules supported fs
        = Raise FileNotFoundError).
Proof.
  split; [|split].
  - intros ln e. split; [apply format_line_Raise|].
    intros (-> & e0 & e1 & r & e3 & e4 & Hsplit & Hne & Hsup & Hdeny & Hreq & Hint).
    unfold format_line. rewrite Hsplit. cbn [length Nat.eqb negb].
    rewrite (bool_decide_eq_false_2 _ Hne).
    rewrite bool_decide_eq_false_2 by (intros Hn; exact (Hn Hsup)).
    rewrite (bool_decide_eq_false_2 _ Hdeny).
    rewrite bool_decide_eq_false_2 by (intros Hn; exact (Hn Hreq)).
    by rewrite Hint.
  - intros lines issues e. split; [apply format_lines_Raise|].
    intros (ln & Hin & Hln). revert issues.
    induction lines as [|l lines IH]; intros issues; [inversion Hin|].
    cbn [format_lines].
    destruct (format_line relpos rules supported l) as [[i|]|e'] eqn:Hl.
    + apply elem_of_cons in Hin as [->|Hin]; [congruence|by apply IH].
    + apply elem_of_cons in Hin as [->|Hin]; [congruence|by apply IH].
    + apply format_line_Raise in Hl as [-> _].
      by apply format_line_Raise in Hln as [-> _].
  - intros source_dir p fs Hp. unfold _format_result, readlines, read.
    by rewrite Hp.
Qed.

Lemma format_result_issue source_dir p rules supported fs issues i :
  _format_result source_dir p rules supported fs = Ok issues ->
  i ∈ issues ->
  rule i ∈ rules /\ Some (rule i) ∈ supported
  /\ column i = "1" /\ rule i ≠ "" /\ msg i ≠ "".
Proof.
  intros Hfmt Hin.
  unfold _format_result, readlines, read in Hfmt.
  destruct (fs !! p) as [content|]; [|discriminate]. cbn in Hfmt.
  eapply format_lines_Forall with
    (P := fun i => rule i ∈ rules /\ Some (rule i) ∈ supported
                   /\ column i = "1" /\ rule i ≠ "" /\ msg i ≠ "")
    in Hfmt.
  - rewrite Forall_forall in Hfmt. by apply Hfmt.
  - intros ln j _ Hj.
    apply format_line_Some in Hj
      as (e0 & e1 & e3 & n & Hsplit & Hne & Hsup & _ & Hreq & _ & Hj).
    rewrite Hsplit in Hne.
    split; [exact Hreq|]. split; [exact Hsup|].
    split; [by rewrite Hj|].
    split; intros Heq; apply Hne; rewrite <- Heq.
    + do 2 right. by left.
    + do 4 right. by left.
  - constructor.
Qed.

(** X4. Every issue that [_format_result] returns has a rule that is in
    the rule list it was given and in the catalog, has column ["1"], and
    has a rule and a message that are not empty; every issue that
    [analyze] returns has a rule that was requested. *)
Theorem emitted_issue_invariants :
  (forall source_dir p rules supported fs issues i,
     _format_result source_dir p rules supported fs = Ok issues ->
     i ∈ issues ->
     rule i ∈ rules /\ Some (rule i) ∈ supported
     /\ column i = "1" /\ rule i ≠ "" /\ msg i ≠ "")
  /\ (forall h params fs0 issues fs1 i,
        analyze h params fs0 = Ok (issues, fs1) ->
        i ∈ issues ->
        rule i ∈ Params.rules params).
Proof.
  split; [apply format_result_issue|].
  intros h params fs0 issues fs1 i Hrun Hin.
  apply analyze_inv in Hrun as [->|[m Hfmt]]; [inversion Hin|].
  destruct (format_result_issue _ _ _ _ _ _ _ Hfmt Hin) as [Hreq _].
  by apply negotiated_rules_spec in Hreq as [? _].
Qed.

(** X5. With an empty rule list the parser returns the empty list for
    every result file, whatever its lines; so a run of [analyze] in
    which no rule is requested returns no issue, although the tool was
    run with the default categories. *)
Theorem nothing_requested_nothing_reported :
  (forall source_dir p supported fs,
     is_Some (fs !! p) ->
     _format_result source_dir p [] supported fs = Ok [])
  /\ (forall h params fs0 issues fs1,
        Params.rules params = [] ->
        analyze h params fs0 = Ok (issues, fs1) ->
        issues = []).
Proof.
  split.
  - intros source_dir p supported fs [content Hp].
    rewrite (format_result_unfold _ _ _ _ _ _ Hp).
    apply format_lines_all_discarded.
    intros ln _. apply format_line_only_missingInclude.
    intros r Hr. inversion Hr.
  - intros h params fs0 issues fs1 Hrules Hrun.
    destruct issues as [|i issues]; [reflexivity|]. exfalso.
    assert (rule i ∈ Params.rules params) as Hin.
    { apply analyze_inv in Hrun as [Hnil|[m Hfmt]]; [discriminate|].
      assert (i ∈ i :: issues) as Hi by (by left).
      destruct (format_result_issue _ _ _ _ _ _ _ Hfmt Hi) as [Hreq _].
      by apply negotiated_rules_spec in Hreq as [? _]. }
    rewrite Hrules in Hin. inversion Hin.
Qed.

(** ** The scan *)

(** X6. Whenever [_run_cppcheck] returns, it returns the fixed path
    ["cppcheck_result.xml"].  On a platform other than [win32], and on
    [win32] when the tool left no result file, the file system is
    exactly as the runner handed it back; on [win32] with a result file
    the one change is that file, rewritten with its transcoded content.
    The text stripped of the locale warning is written nowhere. *)
Theorem run_cppcheck_writes_nothing (h : Host) (files_path : string)
    (rules : list string) (m : gmap (option string) (option string))
    (fs : gmap string string) (p : string) (fs' : gmap string string) :
  _run_cppcheck h files_path rules m fs = Ok (p, fs') ->
  p = scan_result_path
  /\ exists home args rc fs1,
       environ h !! "CPPCHECK_HOME" = Some home
       /\ cppcheck_cmd_args h files_path rules m home = Ok args
       /\ SubProcController h args (Some home) _error_callback fs = Ok (rc, fs1)
       /\ (platform h ≠ "win32" -> fs' = fs1)
       /\ (fs1 !! scan_result_path = None -> fs' = fs1)
       /\ (forall content,
             platform h = "win32" ->
             fs1 !! scan_result_path = Some content ->
             exists result_content,
               gbk_to_utf8 h content = Some result_content
               /\ fs' = <[scan_result_path := result_content]> fs1).
Proof.
  intros Hrun. split; [by eapply run_cppcheck_path|].
  revert Hrun. unfold _run_cppcheck, bind, lift, exists_, ret, raise.
  destruct (environ h !! "CPPCHECK_HOME") as [home|] eqn:Henv; [|discriminate].
  destruct (cppcheck_cmd_args h files_path rules m home) as [args|] eqn:Hargs;
    [|discriminate].
  destruct (SubProcController h args (Some home) _error_callback fs)
    as [[rc fs1]|] eqn:Hproc; [|discriminate].
  intros Hrun. exists home, args, rc, fs1.
  split; [reflexivity|]. split; [exact Hargs|]. split; [exact Hproc|].
  destruct (fs1 !! scan_result_path) as [content|] eqn:Hfile.
  - rewrite bool_decide_eq_true_2 in Hrun by eauto. cbn [negb] in Hrun.
    destruct (String.eqb (platform h) "win32") eqn:Hplat.
    + apply String.eqb_eq in Hplat.
      unfold transcode, write in Hrun. rewrite Hfile in Hrun.
      destruct (gbk_to_utf8 h content) as [result_content|] eqn:Hgbk;
        [|discriminate].
      assert (fs' = <[scan_result_path := result_content]> fs1) as ->.
      { unfold read in Hrun. repeat case_match; simplify_eq; reflexivity. }
      split; [intros Hne; contradiction|]. split; [discriminate|].
      intros content' _ [= <-]. eauto.
    + apply String.eqb_neq in Hplat.
      assert (fs' = fs1) as ->.
      { unfold read in Hrun. repeat case_match; simplify_eq; reflexivity. }
      split; [reflexivity|]. split; [reflexivity|].
      intros content' Hwin. contradiction.
  - rewrite bool_decide_eq_false_2 in Hrun by (intros [? ?]; discriminate).
    cbn [negb] in Hrun. simplify_eq.
    split; [reflexivity|]. split; [reflexivity|]. discriminate.
Qed.

(** ** Severity lookup and the command line *)

Lemma mapM_missing_key (m : gmap (option string) (option string))
    (rule_list : list string) :
  Exists (fun r => m !! Some r = None) rule_list ->
  mapM (M := result)
    (fun rule_name =>
       match m !! Some rule_name with
       | Some severity => Ok severity
       | None => Raise KeyError
       end) rule_list
  = Raise KeyError.
Proof.
  induction rule_list as [|r rest IH]; intros Hex; [inversion Hex|].
  cbn [mapM]. destruct (m !! Some r) as [c|] eqn:Hr; [|reflexivity].
  cbn [mbind result_bind]. rewrite IH; [reflexivity|].
  inversion Hex as [? ? Hhd|? ? Htl]; subst; [congruence|exact Htl].
Qed.

Lemma needed_visitors_cases (m : gmap (option string) (option string))
    (rule_list : list string) :
  (exists r, r ∈ rule_list /\ m !! Some r = None)
  /\ _get_needed_visitors m rule_list = Raise KeyError
  \/ (forall r, r ∈ rule_list -> Some r ∈ dom m)
     /\ exists visitors, _get_needed_visitors m rule_list = Ok visitors.
Proof.
  destruct (decide (Exists (fun r => m !! Some r = None) rule_list)) as [Hex|Hall].
  - left. split.
    + apply Exists_exists in Hex. exact Hex.
    + unfold _get_needed_visitors. by rewrite mapM_missing_key.
  - right. apply not_Exists_Forall in Hall; [|intros r; apply _].
    rewrite Forall_forall in Hall.
    assert (Hkeys : forall r, r ∈ rule_list -> Some r ∈ dom m).
    { intros r Hr. apply elem_of_dom. specialize (Hall r Hr). cbn in Hall.
      destruct (m !! Some r); [eauto|contradiction]. }
    split; [exact Hkeys|].
    destruct (needed_visitors_spec m rule_list Hkeys) as (V & HV & _). eauto.
Qed.

(** X7. [_get_needed_visitors] raises [KeyError] exactly when one of the
    rules is not a key of the severity map, and raises nothing else; on
    the rule list that [analyze] negotiates the command line is
    therefore never lost to a [KeyError]. *)
Theorem severity_lookup_key_error (m : gmap (option string) (option string)) :
  (forall rule_list,
     (exists r, r ∈ rule_list /\ m !! Some r = None) <->
     _get_needed_visitors m rule_list = Raise KeyError)
  /\ (forall rule_list e,
        _get_needed_visitors m rule_list = Raise e -> e = KeyError)
  /\ (forall (h : Host) (files_path : string) (R : list string) (home : string),
        cppcheck_cmd_args h files_path (negotiated_rules R (dom m)) m home
        ≠ Raise KeyError).
Proof.
  split; [|split].
  - intros rule_list. split.
    + intros Hex.
      destruct (needed_visitors_cases m rule_list)
        as [[_ Hraise]|[Hkeys _]]; [exact Hraise|].
      destruct Hex as (r & Hr & Hnone). apply Hkeys, elem_of_dom in Hr as [c Hc].
      congruence.
    + intros Hraise.
      destruct (needed_visitors_cases m rule_list)
        as [[Hex _]|[_ [V HV]]]; [exact Hex|congruence].
  - intros rule_list e Hraise.
    destruct (needed_visitors_cases m rule_list)
      as [[_ Hk]|[_ [V HV]]]; congruence.
  - intros h files_path R home Hraise. unfold cppcheck_cmd_args in Hraise.
    case_bool_decide; [cbv [mbind result_bind] in Hraise; discriminate Hraise|].
    destruct (needed_visitors_cases m (negotiated_rules R (dom m)))
      as [[(r & Hr & Hnone) _]|[_ [V HV]]].
    + apply negotiated_rules_spec in Hr as [_ Hr].
      apply elem_of_dom in Hr as [c Hc]. congruence.
    + rewrite HV in Hraise. unfold join_items in Hraise.
      cbv [mbind result_bind] in Hraise.
      repeat case_match; simplify_eq.
Qed.

(** The command line, when it can be built, is the four fixed
    arguments, at most one [--enable=] argument, the [-j] argument unless
    ["unusedFunction"] is among the rules, and the tail. *)
Lemma cmd_args_shape (h : Host) (files_path : string) (rules : list string)
    (m : gmap (option string) (option string)) (home : string)
    (args : list string) :
  cppcheck_cmd_args h files_path rules m home = Ok args ->
  exists enable,
    (enable = [] \/ exists x, enable = ["--enable=" +:+ x])
    /\ args = ["cppcheck"; "--quiet"; template; "--inconclusive"]
              ++ enable
              ++ (if bool_decide ("unusedFunction" ∉ rules)
                  then ["-j " +:+ cpu_count h] else [])
              ++ cmd_tail h files_path home.
Proof.
  unfold cppcheck_cmd_args, cmd_tail. intros Hargs.
  case_bool_decide as Hnil.
  - subst rules. cbv [mbind result_bind] in Hargs. injection Hargs as <-.
    exists ["--enable=warning,style,information"].
    split; [right; by exists "warning,style,information"|].
    rewrite bool_decide_eq_true_2 by (intros Hin; inversion Hin).
    reflexivity.
  - destruct (_get_needed_visitors m rules) as [V|]; [|discriminate Hargs].
    cbv [mbind result_bind] in Hargs.
    destruct (bool_decide (V ≠ ∅)).
    + destruct (join_items "," (elements V)) as [x|]; [|discriminate Hargs].
      injection Hargs as <-. exists ["--enable=" +:+ x].
      split; [right; by exists x|].
      destruct (bool_decide (_ ∉ _)); cbn [app]; by rewrite <- ?app_assoc.
    + injection Hargs as <-. exists [].
      split; [by left|].
      destruct (bool_decide (_ ∉ _)); cbn [app]; by rewrite <- ?app_assoc.
Qed.

(** X8. When ["unusedFunction"] is among the rules no argument of the
    command line starts with [-j], so the tool runs single-threaded; in
    every other case the command line carries [-j] with the processor
    count. *)
Theorem unused_function_disables_jobs (h : Host) (files_path : string)
    (rules : list string) (m : gmap (option string) (option string))
    (home : string) (args : list string) :
  cppcheck_cmd_args h files_path rules m home = Ok args ->
  ("unusedFunction" ∈ rules ->
   forall a, a ∈ args -> Py.startswith a "-j" = false)
  /\ ("unusedFunction" ∉ rules -> "-j " +:+ cpu_count h ∈ args).
Proof.
  intros Hargs.
  apply cmd_args_shape in Hargs as (enable & Henable & ->). split.
  - intros Hin a Ha.
    rewrite bool_decide_eq_false_2 in Ha by (intros Hn; exact (Hn Hin)).
    rewrite !elem_of_app in Ha.
    destruct Ha as [Ha|[Ha|[Ha|Ha]]].
    + repeat (apply elem_of_cons in Ha as [->|Ha]; [reflexivity|]).
      inversion Ha.
    + destruct Henable as [->|[x ->]]; [inversion Ha|].
      apply list_elem_of_singleton in Ha as ->. reflexivity.
    + inversion Ha.
    + unfold cmd_tail in Ha. rewrite !elem_of_app, !list_elem_of_fmap in Ha.
      destruct Ha as [(y & -> & _)|[(y & -> & _)|Ha]]; [reflexivity..|].
      apply list_elem_of_singleton in Ha as ->. reflexivity.
  - intros Hnot. rewrite bool_decide_eq_true_2 by exact Hnot.
    rewrite !elem_of_app. right. right. left. by left.
Qed.

(** X9. When every rule of a non-empty list has severity ["error"] the
    command line has no [--enable=] argument at all: only the checks the
    tool always runs are on. *)
Theorem only_error_rules_enable_nothing (h : Host) (files_path : string)
    (rules : list string) (m : gmap (option string) (option string))
    (home : string) :
  rules ≠ [] ->
  (forall r, r ∈ rules -> m !! Some r = Some (Some "error")) ->
  _get_needed_visitors m rules = Ok ∅
  /\ cppcheck_cmd_args h files_path rules m home
     = Ok (["cppcheck"; "--quiet"; template; "--inconclusive"]
           ++ (if bool_decide ("unusedFunction" ∉ rules)
               then ["-j " +:+ cpu_count h] else [])
           ++ cmd_tail h files_path home).
Proof.
  intros Hne Herr.
  destruct (needed_visitors_spec m rules) as (V & HV & Hmem).
  { intros r Hr. apply elem_of_dom. rewrite (Herr r Hr). eauto. }
  assert (V = ∅) as ->.
  { apply set_eq. intros c. rewrite Hmem. split.
    - intros [(r & Hr & Hc) Hnot]. rewrite (Herr r Hr) in Hc.
      exfalso. apply Hnot. congruence.
    - intros Hc. by apply not_elem_of_empty in Hc. }
  split; [exact HV|].
  unfold cppcheck_cmd_args, cmd_tail.
  rewrite bool_decide_eq_false_2 by exact Hne.
  rewrite HV. cbv [mbind result_bind].
  rewrite bool_decide_eq_false_2 by (intros Hn; by apply Hn).
  destruct (bool_decide (_ ∉ _)); cbn [app]; by rewrite <- ?app_assoc.
Qed.

(** X10. When a rule of the list has a catalog entry without a severity
    attribute, the map holds [None] for it and building the command line
    raises [TypeError] in [",".join]. *)
Theorem missing_severity_type_error (h : Host) (files_path : string)
    (rules : list string) (m : gmap (option string) (option string))
    (home : string) (r : string) :
  (forall r', r' ∈ rules -> Some r' ∈ dom m) ->
  r ∈ rules ->
  m !! Some r = Some None ->
  cppcheck_cmd_args h files_path rules m home = Raise TypeError.
Proof.
  intros Hkeys Hr Hnone.
  destruct (needed_visitors_spec m rules Hkeys) as (V & HV & Hmem).
  assert (None ∈ V) as HinV.
  { apply Hmem. split; [eauto|discriminate]. }
  unfold cppcheck_cmd_args.
  rewrite bool_decide_eq_false_2 by (intros ->; inversion Hr).
  rewrite HV. cbv [mbind result_bind].
  rewrite bool_decide_eq_true_2 by (intros ->; by apply not_elem_of_empty in HinV).
  unfold join_items.
  assert (mapM (M := option) id (elements V) = None) as ->; [|reflexivity].
  apply mapM_None. apply Exists_exists. exists None.
  split; [by apply elem_of_elements|reflexivity].
Qed.

(** ** Negotiation *)

(** X11. Up to the order of the list, negotiation is idempotent and
    depends on the requested rules only as a set (order and repetitions
    do not matter); it returns the empty list exactly when no requested
    rule is in the catalog. *)
Theorem negotiation_is_stable (S : gset (option string)) :
  (forall R, negotiated_rules (negotiated_rules R S) S ≡ₚ negotiated_rules R S)
  /\ (forall R R', (forall r, r ∈ R <-> r ∈ R') ->
        negotiated_rules R S ≡ₚ negotiated_rules R' S)
  /\ (forall R, negotiated_rules R S = [] <-> forall r, r ∈ R -> Some r ∉ S).
Proof.
  split; [|split].
  - intros R. apply NoDup_Permutation; [apply NoDup_elements..|].
    intros r. rewrite !negotiated_rules_spec. tauto.
  - intros R R' Hiff. apply NoDup_Permutation; [apply NoDup_elements..|].
    intros r. rewrite !negotiated_rules_spec, (Hiff r). tauto.
  - intros R. split.
    + intros Hnil r Hr Hs.
      assert (r ∈ negotiated_rules R S) as Hin by (by apply negotiated_rules_spec).
      rewrite Hnil in Hin. inversion Hin.
    + intros Hnone. destruct (negotiated_rules R S) as [|r l] eqn:Hneg;
        [reflexivity|].
      assert (r ∈ negotiated_rules R S) as Hin by (rewrite Hneg; by left).
      apply negotiated_rules_spec in Hin as [Hr Hs]. by apply Hnone in Hr.
Qed.

(** ** The output template and the parser *)

(** A separator whose first character does not occur again in it cannot
    match across the end of a text that it does not match. *)
Lemma prefix_not_across (d : ascii) (s t w : string) :
  Forall (fun a => a ≠ d) (list_ascii_of_string s) ->
  String.prefix s t = false ->
  String.prefix s (t +:+ String d w) = false.
Proof.
  revert t. induction s as [|a s IH]; intros t Hd Hp.
  - by destruct t.
  - cbn [list_ascii_of_string] in Hd. apply Forall_cons in Hd as [Had Hd].
    destruct t as [|b t].
    + change ("" +:+ String d w) with (String d w). cbn [String.prefix].
      destruct (ascii_dec a d); [contradiction|reflexivity].
    + change (String b t +:+ String d w) with (String b (t +:+ String d w)).
      cbn [String.prefix] in Hp |- *.
      destruct (ascii_dec a b); [|reflexivity]. by apply IH.
Qed.

Lemma delim_not_across (t rest : string) :
  t ≠ "" ->
  String.prefix DELIM t = false ->
  String.prefix DELIM (t +:+ DELIM +:+ rest) = false.
Proof.
  intros Hne Hp. destruct t as [|b t]; [contradiction|].
  change (String b t +:+ DELIM +:+ rest)
    with (String b (t +:+ String "[" ("CODEDOG]" +:+ rest))).
  unfold DELIM in Hp |- *. cbn [String.prefix] in Hp |- *.
  destruct (ascii_dec "[" b); [|reflexivity].
  apply prefix_not_across; [|exact Hp].
  cbn [list_ascii_of_string]. repeat constructor; discriminate.
Qed.

Lemma split_go_at_delim (rest : string) :
  Py.split_go DELIM 0 (DELIM +:+ rest) = "" :: Py.split_go DELIM 0 rest.
Proof.
  assert (String.prefix DELIM (DELIM +:+ rest) = true) as Hp
    by (apply prefix_app_iff; eauto).
  change (DELIM +:+ rest) with (String "[" ("CODEDOG]" +:+ rest)) in Hp |- *.
  cbn [Py.split_go]. rewrite Hp. reflexivity.
Qed.

Lemma split_go_field (f rest : string) :
  Py.contains f DELIM = false ->
  Py.split_go DELIM 0 (f +:+ DELIM +:+ rest) = f :: Py.split_go DELIM 0 rest.
Proof.
  induction f as [|c f IH]; intros Hf.
  - apply split_go_at_delim.
  - cbn [Py.contains] in Hf. apply orb_false_iff in Hf as [Hp Hf].
    assert (String.prefix DELIM (String c f +:+ DELIM +:+ rest) = false) as Hq
      by (by apply delim_not_across).
    change (String c f +:+ DELIM +:+ rest)
      with (String c (f +:+ DELIM +:+ rest)) in Hq |- *.
    cbn [Py.split_go]. rewrite Hq, (IH Hf). reflexivity.
Qed.

Lemma split_go_last (f : string) :
  Py.contains f DELIM = false -> Py.split_go DELIM 0 f = [f].
Proof.
  induction f as [|c f IH]; intros Hf; [reflexivity|].
  cbn [Py.contains] in Hf. apply orb_false_iff in Hf as [Hp Hf].
  cbn [Py.split_go]. rewrite Hp, (IH Hf). reflexivity.
Qed.

Lemma split_join_fields (fields : list string) :
  fields ≠ [] ->
  Forall (fun f => Py.contains f DELIM = false) fields ->
  Py.split (Py.join DELIM fields) DELIM = fields.
Proof.
  unfold Py.split. induction fields as [|f fields IH]; intros Hne Hall; [done|].
  apply Forall_cons in Hall as [Hf Hall].
  destruct fields as [|g fields].
  - by apply split_go_last.
  - change (Py.join DELIM (f :: g :: fields))
      with (f +:+ DELIM +:+ Py.join DELIM (g :: fields)).
    rewrite (split_go_field _ _ Hf), IH; [reflexivity|done|exact Hall].
Qed.

(** X12. Splitting undoes the output template: fields that do not
    contain the delimiter, joined by it, split back into the same
    fields; so a line that the tool prints for five such non-empty
    fields, with a rule that passes the filters and a line field that
    [int] reads as [n], is parsed to the issue made of those fields. *)
Theorem template_round_trip :
  (forall fields,
     fields ≠ [] ->
     Forall (fun f => Py.contains f DELIM = false) fields ->
     Py.split (Py.join DELIM fields) DELIM = fields)
  /\ (forall relpos rules supported file lineno rule_id severity message n,
        Forall (fun f => Py.contains f DELIM = false /\ f ≠ "")
          [file; lineno; rule_id; severity; message] ->
        Some rule_id ∈ supported ->
        rule_id ∉ ["missingInclude"; "MissingIncludeSystem"] ->
        rule_id ∈ rules ->
        Py.int lineno = Some n ->
        format_line relpos rules supported
          (Py.join DELIM [file; lineno; rule_id; severity; message])
        = Ok (Some {| path := Py.slice_from relpos file; line := n;
                      column := "1"; msg := message; rule := rule_id |})).
Proof.
  split; [exact split_join_fields|].
  intros relpos rules supported file lineno rule_id severity message n
    Hall Hsup Hdeny Hreq Hint.
  unfold format_line. rewrite split_join_fields.
  - cbn [length Nat.eqb negb].
    rewrite bool_decide_eq_false_2.
    + rewrite bool_decide_eq_false_2 by (intros Hn; exact (Hn Hsup)).
      rewrite (bool_decide_eq_false_2 _ Hdeny).
      rewrite bool_decide_eq_false_2 by (intros Hn; exact (Hn Hreq)).
      by rewrite Hint.
    + intros Hin. rewrite Forall_forall in Hall.
      destruct (Hall "" Hin) as [_ Hne]. by apply Hne.
  - done.
  - eapply Forall_impl; [exact Hall|]. by intros f [? _].
Qed.

(** ** Paths: selection and report *)

Lemma slice_from_app_char (a : string) (c : ascii) (b : string) :
  Py.slice_from (String.length a + 1) (a +:+ String c b) = b.
Proof. induction a as [|x a IH]; [reflexivity|exact IH]. Qed.

(** X13. The parser's offset undoes the selector's join: for a source
    root that is not empty and does not end in a slash, and a relative
    path, the characters after the first [len(source_dir) + 1] of
    [os.path.join(source_dir, path)] are the relative path again.  When
    the source root ends in a slash the join adds none and the offset
    takes the first character of the relative path with it. *)
Theorem relative_path_round_trip (source_dir rel : string) :
  Py.startswith rel "/" = false ->
  (source_dir ≠ "" -> Py.endswith source_dir "/" = false ->
   Py.slice_from (String.length source_dir + 1) (Py.path_join source_dir rel)
   = rel)
  /\ (Py.endswith source_dir "/" = true ->
      Py.slice_from (String.length source_dir + 1) (Py.path_join source_dir rel)
      = Py.slice_from 1 rel).
Proof.
  intros Hrel. unfold Py.path_join. rewrite Hrel. split.
  - intros Hne Hslash. rewrite Hslash, orb_false_r.
    destruct (String.eqb source_dir "") eqn:Heq.
    + by apply String.eqb_eq in Heq.
    + apply (slice_from_app_char source_dir "/" rel).
  - intros Hslash. rewrite Hslash, orb_true_r.
    generalize rel. clear. induction source_dir as [|x a IH]; intros rel.
    + reflexivity.
    + exact (IH rel).
Qed.

(** ** Failures of the discovery, and an empty selection *)

(** X14. With files to scan, a failed discovery ends [analyze] before
    the scan is started: [KeyError] when [CPPCHECK_HOME] is not in the
    environment, [ConfigError] when the errorlist query reports a
    non-zero code.  Neither is caught. *)
Theorem discovery_failure_propagates (h : Host) (params : Params.t)
    (fs : gmap string string) :
  select_files h params ≠ [] ->
  (environ h !! "CPPCHECK_HOME" = None ->
   analyze h params fs = Raise KeyError)
  /\ (forall home rc fs',
        environ h !! "CPPCHECK_HOME" = Some home ->
        SubProcController h ["cppcheck"; "--errorlist"; "--xml-version=2"]
          (Some home) print_log
          (<[Py.path_join (Params.work_dir params) "paths.txt"
             := Py.join (String Py.LF "") (select_files h params)]> fs)
        = Ok (rc, fs') ->
        rc ≠ 0 ->
        analyze h params fs = Raise ConfigError).
Proof.
  intros Hsel. split.
  - intros Henv. unfold analyze, bind, write, _get_id_severity_map, raise.
    rewrite bool_decide_eq_false_2 by exact Hsel. by rewrite Henv.
  - intros home rc fs' Henv Hproc Hrc.
    unfold analyze, bind, write, _get_id_severity_map, raise.
    rewrite bool_decide_eq_false_2 by exact Hsel.
    rewrite Henv. unfold bind. rewrite Hproc.
    apply Z.eqb_neq in Hrc. by rewrite Hrc.
Qed.

(** X15. In incremental mode, when every entry of the diff is deleted or
    has no suffix of the allow-list, and the path filter adds no path,
    [analyze] returns the empty list at once: no manifest is written and
    no process is started, so the file system is as it was. *)
Theorem nothing_to_scan (h : Host) (params : Params.t) (fs : gmap string string) :
  Params.incr_scan params = true ->
  (forall diff, diff ∈ get_scm_diff h params ->
     Diff.state diff = "del"
     \/ Py.endswith_any (Diff.path diff) want_suffix = false) ->
  (forall l n, get_include_files h params l n ⊆ l) ->
  incr_toscans (Params.source_dir params) (get_scm_diff h params) = []
  /\ analyze h params fs = Ok ([], fs).
Proof.
  intros Hincr Hdiff Hfilter.
  assert (incr_toscans (Params.source_dir params) (get_scm_diff h params) = [])
    as Hnil.
  { destruct (incr_toscans _ _) as [|x l] eqn:Hsel; [reflexivity|].
    assert (x ∈ incr_toscans (Params.source_dir params) (get_scm_diff h params))
      as Hx by (rewrite Hsel; by left).
    unfold incr_toscans in Hx.
    apply list_elem_of_fmap in Hx as (diff & _ & Hin).
    apply list_elem_of_filter in Hin as [[Hsuf Hst] Hin].
    destruct (Hdiff diff Hin) as [Hdel|Hno]; congruence. }
  split; [exact Hnil|].
  unfold analyze, select_files. rewrite Hincr, Hnil.
  assert (get_include_files h params []
            (String.length (Params.source_dir params) + 1) = []) as ->.
  { destruct (get_include_files h params [] _) as [|x l] eqn:Hf; [reflexivity|].
    assert (x ∈ ([] : list string)) as Hx
      by (eapply Hfilter; rewrite Hf; by left).
    inversion Hx. }
  reflexivity.
Qed.

(** X16. A discovery whose errorlist query reports code zero still fails
    when the catalog is unusable, and never with [ConfigError]:
    [FileNotFoundError] when the catalog file is not there, [ParseError]
    when it does not parse, [TypeError] when the document has no
    [errors] element; it does not return an empty map instead. *)
Theorem unusable_catalog (h : Host) (fs : gmap string string)
    (home : string) (fs' : gmap string string) :
  environ h !! "CPPCHECK_HOME" = Some home ->
  SubProcController h ["cppcheck"; "--errorlist"; "--xml-version=2"]
    (Some home) print_log fs = Ok (0, fs') ->
  (fs' !! errorlist_path = None ->
   _get_id_severity_map h fs = Raise FileNotFoundError)
  /\ (forall text,
        fs' !! errorlist_path = Some text ->
        fromstring h (Py.universal_newlines text) = None ->
        _get_id_severity_map h fs = Raise ParseError)
  /\ (forall text root,
        fs' !! errorlist_path = Some text ->
        fromstring h (Py.universal_newlines text) = Some root ->
        (forall c, c ∈ iter root -> tag_of c ≠ "errors") ->
        _get_id_severity_map h fs = Raise TypeError).
Proof.
  intros Henv Hproc.
  unfold _get_id_severity_map, bind, lift, read, raise. rewrite Henv, Hproc.
  cbn [Z.eqb negb]. split; [|split].
  - by intros ->.
  - intros text -> Hparse. by rewrite Hparse.
  - intros text root -> Hparse Htags. rewrite Hparse.
    assert (find root "errors" = None) as ->; [|reflexivity].
    unfold find. induction (iter root) as [|c l IH]; [reflexivity|].
    cbn [List.find].
    rewrite (proj2 (String.eqb_neq (tag_of c) "errors"))
      by (apply Htags; by left).
    apply IH. intros c' Hc'. apply Htags. by right.
Qed.

(** ** The further properties on the concrete host *)

Lemma fatal_stderr_line_aborts_witness :
  _error_callback "cppcheck: The command line is too long."
  = Raise AnalyzeTaskError.
Proof.
  apply (proj1 (proj1 (fatal_stderr_line_aborts (Example.host None 0)
                         "/work/paths.txt" ["nullPointer"]
                         (id_severity_dict Example.errors) Example.fs_discovered
                         "/opt/cppcheck" []
                         {| return_code := 0; stderr_lines := [];
                            fs_after := Example.fs_discovered |})
                  "cppcheck: The command line is too long.")).
  exists "cppcheck: ", ".". reflexivity.
Defined.

Lemma parser_keeps_order_witness :
  exists new, [Example.issue] = [] ++ new /\ (length new <= 1)%nat.
Proof.
  apply (proj2 (proj2 (parser_keeps_order 5 ["nullPointer"] Example.supported []))
           [Example.raw_line] [Example.issue]).
  vm_compute. reflexivity.
Defined.

Lemma format_result_failures_witness :
  format_lines 5 ["nullPointer"] Example.supported
    [Example.raw_line; Example.bad_line] []
  = Raise ValueError.
Proof.
  apply (proj1 (proj2 (format_result_failures 5 ["nullPointer"]
                         Example.supported))).
  exists Example.bad_line. split; [by_compute|vm_compute; reflexivity].
Defined.

Lemma emitted_issue_invariants_witness :
  rule Example.issue ∈ ["nullPointer"]
  /\ Some (rule Example.issue) ∈ Example.supported
  /\ column Example.issue = "1" /\ rule Example.issue ≠ ""
  /\ msg Example.issue ≠ "".
Proof.
  apply (proj1 emitted_issue_invariants "/src" "cppcheck_result.xml"
           ["nullPointer"] Example.supported
           {[ "cppcheck_result.xml" := Example.raw_line ]} [Example.issue]).
  - vm_compute. reflexivity.
  - by left.
Defined.

Lemma nothing_requested_nothing_reported_witness :
  _format_result "/src" "cppcheck_result.xml" [] Example.supported
    {[ "cppcheck_result.xml" := Example.raw_line ]}
  = Ok [].
Proof.
  apply (proj1 nothing_requested_nothing_reported).
  exists Example.raw_line. vm_compute. reflexivity.
Defined.

Lemma run_cppcheck_writes_nothing_witness :
  "cppcheck_result.xml" = scan_result_path.
Proof.
  apply (proj1 (run_cppcheck_writes_nothing (Example.host None 0)
                  "/work/paths.txt" ["nullPointer"]
                  (id_severity_dict Example.errors) Example.fs_discovered
                  "cppcheck_result.xml" Example.fs_discovered
                  ltac:(vm_compute; reflexivity))).
Defined.

Lemma severity_lookup_key_error_witness :
  _get_needed_visitors (id_severity_dict Example.errors) ["noSuchRule"]
  = Raise KeyError.
Proof.
  apply (proj1 (proj1 (severity_lookup_key_error (id_severity_dict Example.errors))
                  ["noSuchRule"])).
  exists "noSuchRule". split; [by_compute|vm_compute; reflexivity].
Defined.

Lemma unused_function_disables_jobs_witness :
  "-j " +:+ cpu_count (Example.host None 0)
  ∈ ["cppcheck"; "--quiet"; template; "--inconclusive"; "-j 4";
     "--file-list=/work/paths.txt"].
Proof.
  apply (proj2 (unused_function_disables_jobs (Example.host None 0)
                  "/work/paths.txt" ["nullPointer"]
                  (id_severity_dict Example.errors) "/opt/cppcheck" _
                  ltac:(vm_compute; reflexivity))).
  by_compute.
Defined.

Lemma only_error_rules_enable_nothing_witness :
  _get_needed_visitors (id_severity_dict Example.errors) ["nullPointer"] = Ok ∅.
Proof.
  apply (proj1 (only_error_rules_enable_nothing (Example.host None 0)
                  "/work/paths.txt" ["nullPointer"]
                  (id_severity_dict Example.errors) "/opt/cppcheck"
                  ltac:(discriminate)
                  ltac:(intros r ->%list_elem_of_singleton;
                        vm_compute; reflexivity))).
Defined.

Lemma missing_severity_type_error_witness :
  cppcheck_cmd_args (Example.host None 0) "/work/paths.txt" ["bare"]
    {[ Some "bare" := None ]} "/opt/cppcheck"
  = Raise TypeError.
Proof.
  apply (missing_severity_type_error (Example.host None 0) "/work/paths.txt"
           ["bare"] {[ Some "bare" := None ]} "/opt/cppcheck" "bare").
  - intros r ->%list_elem_of_singleton. by_compute.
  - by_compute.
  - vm_compute. reflexivity.
Defined.

Lemma negotiation_is_stable_witness :
  negotiated_rules ["noSuchRule"] Example.supported = [].
Proof.
  apply (proj2 (proj2 (negotiation_is_stable Example.supported)) ["noSuchRule"]).
  intros r ->%list_elem_of_singleton. by_compute.
Defined.

Lemma template_round_trip_witness :
  format_line 5 ["nullPointer"] Example.supported
    (Py.join DELIM ["/src/a.cpp"; "12"; "nullPointer"; "error"; "Null pointer"])
  = Ok (Some {| path := "a.cpp"; line := 12; column := "1";
                msg := "Null pointer"; rule := "nullPointer" |}).
Proof.
  apply (proj2 template_round_trip 5%nat ["nullPointer"] Example.supported
           "/src/a.cpp" "12" "nullPointer" "error" "Null pointer" 12).
  - repeat constructor; discriminate.
  - by_compute.
  - by_compute.
  - by_compute.
  - reflexivity.
Defined.

Lemma relative_path_round_trip_witness :
  Py.slice_from (String.length "/src" + 1) (Py.path_join "/src" "a.cpp") = "a.cpp".
Proof.
  apply (proj1 (relative_path_round_trip "/src" "a.cpp" eq_refl)).
  - discriminate.
  - reflexivity.
Defined.

Lemma discovery_failure_propagates_witness :
  analyze Example.unconfigured_host (Example.params ["nullPointer"] false) ∅
  = Raise KeyError.
Proof.
  apply (proj1 (discovery_failure_propagates Example.unconfigured_host
                  (Example.params ["nullPointer"] false) ∅
                  ltac:(vm_compute; discriminate))).
  reflexivity.
Defined.

Lemma nothing_to_scan_witness :
  analyze Example.unconfigured_host (Example.params ["nullPointer"] true) ∅
  = Ok ([], ∅).
Proof.
  apply (proj2 (nothing_to_scan Example.unconfigured_host
                  (Example.params ["nullPointer"] true) ∅ eq_refl
                  ltac:(intros diff Hin; vm_compute in Hin;
                        apply elem_of_cons in Hin as [->|Hin];
                        [left; reflexivity|];
                        apply list_elem_of_singleton in Hin as ->;
                        right; reflexivity)
                  ltac:(intros l n x Hx; exact Hx))).
Defined.

Lemma unusable_catalog_witness :
  _get_id_severity_map (Example.host_with_catalog None) Example.fs_listed
  = Raise ParseError.
Proof.
  apply (proj1 (proj2 (unusable_catalog (Example.host_with_catalog None)
                         Example.fs_listed "/opt/cppcheck" Example.fs_discovered
                         eq_refl eq_refl))
           "<results/>" eq_refl eq_refl).
Defined.

(** ** The locale warning and the scan *)



